(** * todo-backend: a shallow embedding of the authenticated todo service

    The development follows the layout of the Python package:
    - [app/core/config.py]      : [Settings], [default_settings];
    - the [jose] token library  : module [Jose] (a symbolic model of the
      calls the service makes into python-jose);
    - [app/auth/jwt.py]         : [create_access_token], [decode_token];
    - [app/auth/dependencies.py]: [get_current_user];
    - [app/models/todo.py]      : modules [TodoCreate] and [Todo];
    - [app/services/kafka_service.py] : [publish_message];
    - [app/api/routes.py]       : [login] and the five todo handlers.

    Conventions.  A Python [datetime] is the number of microseconds since
    the Unix epoch (UTC), an integer; every clock read
    ([datetime.utcnow()], [datetime.now(timezone.utc)]) is an explicit
    argument [now].  Python [int] is [Z].  A Python [str] is held as the
    bytes of its UTF-8 encoding, so a string literal of this file is the
    text it shows; [py_len] counts its characters.  A handler that raises
    [HTTPException] returns [Raise e]; module-level globals are threaded
    through a [State] record. *)

From stdpp Require Import base option list sorting gmap strings pretty.
From Stdlib Require Import ZArith Lia Ascii.

Local Open Scope string_scope.
Local Open Scope list_scope.
Local Open Scope Z_scope.

(** ** Python values that flow through dictionaries *)

(** The values stored in the dictionaries of the service (JWT claims and
    Kafka messages).  [PIsoStr t] is the [str] returned by
    [datetime.isoformat()] for the instant [t]. *)
Inductive pyval : Type :=
  | PNone
  | PBool (b : bool)
  | PInt (z : Z)
  | PStr (s : string)
  | PIsoStr (t : Z)
  | PDatetime (t : Z).

#[global] Instance pyval_eq_dec : EqDecision pyval.
Proof. solve_decision. Defined.

(** [isinstance(v, str)] *)
Definition is_str (v : pyval) : bool :=
  match v with PStr _ | PIsoStr _ => true | _ => false end.

(** What [json.dumps] accepts: everything but a [datetime] object. *)
Definition json_serializable (v : pyval) : bool :=
  match v with PDatetime _ => false | _ => true end.

(** A Python [Optional[str]] as a dictionary value. *)
Definition of_optional_str (o : option string) : pyval :=
  match o with Some s => PStr s | None => PNone end.

(** A Python [dict] with [str] keys. *)
Abbreviation pydict := (gmap string pyval).

(** ** Python strings *)

(** A byte that continues a UTF-8 sequence: [10xxxxxx]. *)
Definition is_continuation_byte (c : Ascii.ascii) : bool :=
  match c with
  | Ascii.Ascii _ _ _ _ _ _ false true => true
  | _ => false
  end.

(** [len(s)]: the number of characters (code points) of the text, that
    is, of the bytes of its encoding that start a character. *)
Fixpoint py_len (s : string) : nat :=
  match s with
  | EmptyString => 0%nat
  | String c s' => ((if is_continuation_byte c then 0 else 1) + py_len s')%nat
  end.

(** [c.isspace()] on an ASCII character. *)
Definition is_space (c : Ascii.ascii) : bool :=
  let n := Ascii.nat_of_ascii c in
  ((9 <=? n)%nat && (n <=? 13)%nat) || ((28 <=? n)%nat && (n <=? 32)%nat).

Definition digit_of (c : Ascii.ascii) : option Z :=
  let n := Z.of_nat (Ascii.nat_of_ascii c) in
  if (48 <=? n) && (n <=? 57) then Some (n - 48) else None.

Fixpoint lstrip (s : string) : string :=
  match s with
  | EmptyString => EmptyString
  | String c s' => if is_space c then lstrip s' else s
  end.

Definition strip (s : string) : string :=
  String.rev (lstrip (String.rev (lstrip s))).

(** The digits of a decimal literal, single underscores allowed between
    two digits; [after_digit] tells that the previous character was a
    digit. *)
Fixpoint decimal_digits (acc : Z) (after_digit : bool) (s : string) : option Z :=
  match s with
  | EmptyString => if after_digit then Some acc else None
  | String c s' =>
      match digit_of c with
      | Some d => decimal_digits (acc * 10 + d) true s'
      | None =>
          if bool_decide (c = "_"%char) && after_digit
          then decimal_digits acc false s'
          else None
      end
  end.

(** [int(s)] on a [str]: surrounding white space, an optional sign and a
    decimal literal; [None] is [ValueError].  Digits and white space
    outside ASCII, which Python also takes, are not read. *)
Definition int_of_str (s : string) : option Z :=
  match strip s with
  | String "+" r => decimal_digits 0 false r
  | String "-" r => Z.opp <$> decimal_digits 0 false r
  | r => decimal_digits 0 false r
  end.

(** [int(v)]; [None] stands for the [ValueError] or [TypeError] raised. *)
Definition py_int (v : pyval) : option Z :=
  match v with
  | PInt z => Some z
  | PBool b => Some (if b then 1 else 0)
  | PStr s => int_of_str s
  | _ => None
  end.

(** ** Dates and durations *)

Module Datetime.

Definition US_PER_SECOND : Z := 1000000.

(** [datetime.min] and [datetime.max], in microseconds since the epoch
    (0001-01-01T00:00:00 and 9999-12-31T23:59:59.999999). *)
Definition MIN : Z := -62135596800 * US_PER_SECOND.
Definition MAX : Z := 253402300799 * US_PER_SECOND + 999999.

Definition in_range (t : Z) : bool := (MIN <=? t) && (t <=? MAX).

(** [timedelta(minutes=m)] *)
Definition minutes (m : Z) : Z := m * 60 * US_PER_SECOND.

(** [d + delta]; [None] is Python's [OverflowError]. *)
Definition add (d delta : Z) : option Z :=
  if in_range (d + delta) then Some (d + delta) else None.

(** [calendar.timegm(d.utctimetuple())]: whole seconds since the epoch,
    the microseconds dropped. *)
Definition timegm (d : Z) : Z := d / US_PER_SECOND.

(** [datetime.fromtimestamp(v, tz=timezone.utc)] for a claim value [v];
    [None] is the exception raised for a value that is not a number or a
    date out of range.  [bool] is a subclass of [int]. *)
Definition fromtimestamp (v : pyval) : option Z :=
  let of_seconds (s : Z) :=
    if in_range (s * US_PER_SECOND) then Some (s * US_PER_SECOND) else None in
  match v with
  | PInt s => of_seconds s
  | PBool b => of_seconds (if b then 1 else 0)
  | _ => None
  end.

End Datetime.

(** ** app/core/config.py *)

Record Settings := {
  SECRET_KEY : string;
  ALGORITHM : string;
  ACCESS_TOKEN_EXPIRE_MINUTES : Z
}.

(** The values [os.getenv] falls back to. *)
Definition default_settings : Settings := {|
  SECRET_KEY := "your-secret-key-change-in-production-environment-variable";
  ALGORITHM := "HS256";
  ACCESS_TOKEN_EXPIRE_MINUTES := 30
|}.

(** ** The token library (python-jose)

    The service calls [jwt.encode] and [jwt.decode] of python-jose, which
    is not part of the repository.  A token is held symbolically: either a
    string that is no well-formed JWS, or a set of claims together with
    the algorithm and the key that signed it.

    What the library does with key material (which algorithms and key
    texts it signs with, and which signatures it accepts when given a key
    text to verify with: it tries to read that text as JSON, refuses some
    key formats, and differs between versions) is not looked into: it is
    the [backend] every function below takes.  What is written out from
    the library is the handling of the claims: the conversion of a
    [datetime] in the time claims to whole seconds on encoding, and on
    decoding the algorithm allow-list and the checks of the registered
    claims with the default options, no audience, no access token and no
    leeway. *)
Module Jose.

Inductive token : Type :=
  | Malformed (raw : string)
  | Signed (alg key : string) (claims : pydict).

Record backend := {
  (** the library signs with algorithm [alg] and key text [key] *)
  signs : forall (alg key : string), bool;
  (** a signature made with [alg] and [signing_key] is accepted when the
      library is given the key text [key] to verify with *)
  verifies : forall (alg signing_key key : string), bool
}.

Definition HMAC_ALGORITHMS : list string := ["HS256"; "HS384"; "HS512"].

(** [needle in haystack] on strings *)
Definition contains (needle haystack : string) : bool :=
  match String.index 0 needle haystack with Some _ => true | None => false end.

(** Texts in a secret that one version or another of the library takes
    for an asymmetric key or a certificate. *)
Definition KEY_FORMAT_MARKS : list string :=
  ["----"; "ssh-"; "ecdsa-"; "openssh"].

(** A plain-text secret: it starts with a letter that begins none of the
    JSON literals, so that reading it as JSON fails and the text itself is
    the key, and it has none of the marks of a key format. *)
Definition plain_secret (key : string) : bool :=
  match key with
  | EmptyString => false
  | String c _ =>
      let n := Ascii.nat_of_ascii c in
      (((65 <=? n)%nat && (n <=? 90)%nat) || ((97 <=? n)%nat && (n <=? 122)%nat))
      && negb (bool_decide (c ∈ ["t"; "f"; "n"; "N"; "I"]%char))
      && forallb (fun mark => negb (contains mark key)) KEY_FORMAT_MARKS
  end.

(** The library as far as every version of it agrees: with an HMAC
    algorithm and a plain-text secret it signs, and accepts a signature
    under the very key that made it.  Elsewhere this instance answers no,
    which need not be what the library does; it stands for the library in
    the examples, all at the default configuration. *)
Definition hmac : backend := {|
  signs alg key := bool_decide (alg ∈ HMAC_ALGORITHMS) && plain_secret key;
  verifies alg signing_key key :=
    bool_decide (alg ∈ HMAC_ALGORITHMS) && plain_secret key
    && bool_decide (signing_key = key)
|}.

(** The time claims [jwt.encode] converts from [datetime] to seconds. *)
Definition TIME_CLAIMS : list string := ["exp"; "iat"; "nbf"].

Definition convert_time_claim (claims : pydict) (name : string) : pydict :=
  match claims !! name with
  | Some (PDatetime t) => <[name := PInt (Datetime.timegm t)]> claims
  | _ => claims
  end.

(** [jwt.encode(claims, key, algorithm=alg)]; [None] stands for the
    exception the library raises. *)
Definition encode (lib : backend) (claims : pydict) (key alg : string)
  : option token :=
  let claims' := foldl convert_time_claim claims TIME_CLAIMS in
  if signs lib alg key
     && bool_decide (map_Forall (fun _ v => json_serializable v = true) claims')
  then Some (Signed alg key claims')
  else None.

(** [_validate_exp]: absent passes; otherwise [int(exp)] must not raise
    and the token is expired when [exp < now]. *)
Definition validate_exp (claims : pydict) (now : Z) : bool :=
  match claims !! "exp" with
  | None => true
  | Some v =>
      match py_int v with
      | Some e => negb (e <? Datetime.timegm now)
      | None => false
      end
  end.

(** [_validate_nbf]: absent passes; otherwise [int(nbf)] must not raise
    and the token is not yet valid when [nbf > now]. *)
Definition validate_nbf (claims : pydict) (now : Z) : bool :=
  match claims !! "nbf" with
  | None => true
  | Some v =>
      match py_int v with
      | Some n => negb (Datetime.timegm now <? n)
      | None => false
      end
  end.

(** [_validate_iat]: absent passes; otherwise [int(iat)] must not raise. *)
Definition validate_iat (claims : pydict) : bool :=
  match claims !! "iat" with
  | None => true
  | Some v => bool_decide (is_Some (py_int v))
  end.

(** [_validate_aud] with no audience given: an [aud] claim never
    matches. *)
Definition validate_aud (claims : pydict) : bool :=
  bool_decide (claims !! "aud" = None).

(** [_validate_sub], [_validate_jti]: absent passes; otherwise the claim
    must be a string. *)
Definition validate_str (claims : pydict) (name : string) : bool :=
  match claims !! name with
  | None => true
  | Some v => is_str v
  end.

(** [_validate_at_hash] with no access token given: an [at_hash] claim
    is refused. *)
Definition validate_at_hash (claims : pydict) : bool :=
  bool_decide (claims !! "at_hash" = None).

Definition validate_claims (claims : pydict) (now : Z) : bool :=
  validate_iat claims && validate_nbf claims now && validate_exp claims now
  && validate_aud claims && validate_str claims "sub"
  && validate_str claims "jti" && validate_at_hash claims.

(** [jwt.decode(token, key, algorithms=algs)], read at the instant [now];
    [None] stands for the exception the library raises. *)
Definition decode (lib : backend) (tok : token) (key : string)
    (algs : list string) (now : Z) : option pydict :=
  match tok with
  | Malformed _ => None
  | Signed alg k claims =>
      if bool_decide (alg ∈ algs) && verifies lib alg k key
         && validate_claims claims now
      then Some claims
      else None
  end.

End Jose.

(** ** HTTP results *)

Record HTTPException := {
  status_code : Z;
  detail : string;
  headers : list (string * string)
}.

(** What a handler hands back to the framework: a value, or a raised
    [HTTPException]. *)
Inductive response (A : Type) : Type :=
  | Ok (a : A)
  | Raise (e : HTTPException).
Arguments Ok {A} a.
Arguments Raise {A} e.

Definition http_error (code : Z) (msg : string) : HTTPException :=
  {| status_code := code; detail := msg; headers := [] |}.

(** ** app/auth/jwt.py *)

(** [class TokenPayload(BaseModel)]: [sub: str], [exp: datetime].  The
    attribute [sub] holds a Python object; that it is a [str] is what the
    constructor's validation establishes, so the field is typed [pyval]
    here and [init] does the validation. *)
Module TokenPayload.

Record t := { sub : pyval; exp : Z }.

(** [TokenPayload(sub=s, exp=e)]; [None] is pydantic's [ValidationError]. *)
Definition init (s : pyval) (e : Z) : option t :=
  if is_str s then Some {| sub := s; exp := e |} else None.

End TokenPayload.

(** [class Token(BaseModel)] *)
Module Token.
Record t := { access_token : Jose.token; token_type : string }.
End Token.

(** The duration [create_access_token] adds to the clock: [if
    expires_delta:] is false for [None] and for the zero duration, and
    the configured default is used then. *)
Definition effective_delta (settings : Settings) (expires_delta : option Z) : Z :=
  match expires_delta with
  | Some d =>
      if bool_decide (d = 0)
      then Datetime.minutes (ACCESS_TOKEN_EXPIRE_MINUTES settings)
      else d
  | None => Datetime.minutes (ACCESS_TOKEN_EXPIRE_MINUTES settings)
  end.

(** [create_access_token(data, expires_delta)] at the instant [now];
    [None] stands for a raised exception. *)
Definition create_access_token (lib : Jose.backend) (settings : Settings)
    (now : Z) (data : pydict) (expires_delta : option Z) : option Jose.token :=
  match Datetime.add now (effective_delta settings expires_delta) with
  | None => None
  | Some expire =>
      let to_encode := <["exp" := PDatetime expire]> data in
      Jose.encode lib to_encode (SECRET_KEY settings) (ALGORITHM settings)
  end.

(** The part of [decode_token] that follows the library call: the claims
    [payload] are checked for [sub] and [exp] and packed.
    [payload.get(k)] is [None] for an absent key and for a stored
    [None] alike. *)
Definition payload_get (payload : pydict) (k : string) : pyval :=
  default PNone (payload !! k).

Definition token_payload_of (payload : pydict) : option TokenPayload.t :=
  let username := payload_get payload "sub" in
  if bool_decide (username = PNone) then None
  else
    let exp := payload_get payload "exp" in
    if bool_decide (exp = PNone) then None
    else
      match Datetime.fromtimestamp exp with
      | None => None
      | Some e => TokenPayload.init username e
      end.

(** [decode_token] over an arbitrary library decoder [lib_decode] (the
    outcome of [jwt.decode] on the token, [None] when it raises). *)
Definition decode_token_with (lib_decode : Jose.token -> option pydict)
    (token : Jose.token) : option TokenPayload.t :=
  match lib_decode token with
  | None => None
  | Some payload => token_payload_of payload
  end.

(** [decode_token(token)] at the instant [now]. *)
Definition decode_token (lib : Jose.backend) (settings : Settings) (now : Z)
    (token : Jose.token) : option TokenPayload.t :=
  decode_token_with
    (fun tok =>
       Jose.decode lib tok (SECRET_KEY settings) [ALGORITHM settings] now)
    token.

(** ** app/auth/dependencies.py *)

Definition unauthorized (msg : string) : HTTPException :=
  {| status_code := 401; detail := msg;
     headers := [("WWW-Authenticate", "Bearer")] |}.

(** [get_current_user] over an arbitrary library decoder. *)
Definition get_current_user_with (lib_decode : Jose.token -> option pydict)
    (token : Jose.token) : response pyval :=
  match decode_token_with lib_decode token with
  | None => Raise (unauthorized "Invalid or expired token")
  | Some token_data =>
      let username := TokenPayload.sub token_data in
      if bool_decide (username = PNone)
      then Raise (unauthorized "Could not validate credentials")
      else Ok username
  end.

(** [get_current_user(credentials)] at the instant [now], on the bearer
    token of the request. *)
Definition get_current_user (lib : Jose.backend) (settings : Settings)
    (now : Z) (token : Jose.token) : response pyval :=
  get_current_user_with
    (fun tok =>
       Jose.decode lib tok (SECRET_KEY settings) [ALGORITHM settings] now)
    token.

(** ** app/models/todo.py *)

(** [class TodoCreate(TodoBase)]: the request body of create and update. *)
Module TodoCreate.

Record t := {
  title : string;
  description : option string;
  completed : bool
}.

(** The [Field] constraints of [TodoBase], which count characters:
    [min_length=1], [max_length=200] on the title and [max_length=1000]
    on the description. *)
Definition title_ok (s : string) : bool :=
  (1 <=? py_len s)%nat && (py_len s <=? 200)%nat.

Definition description_ok (d : option string) : bool :=
  match d with
  | None => true
  | Some s => (py_len s <=? 1000)%nat
  end.

Definition valid (x : t) : bool :=
  title_ok (title x) && description_ok (description x).

End TodoCreate.

(** [class Todo(TodoBase)] *)
Module Todo.

Record t := {
id : Z;
title : string;
description : option string;
completed : bool;
created_at : Z;
updated_at : Z
}.

(** [Todo(id=.., title=.., ...)]: the constructor validates the inherited
  field constraints; [None] is pydantic's [ValidationError]. *)
Definition init (i : Z) (ti : string) (d : option string) (c : bool)
  (created updated : Z) : option t :=
if TodoCreate.title_ok ti && TodoCreate.description_ok d
then Some {| id := i; title := ti; description := d; completed := c;
             created_at := created; updated_at := updated |}
else None.

End Todo.

(** ** The in-memory dictionary [todos_db]

    A Python [dict] keeps its keys in insertion order, which
    [list(todos_db.values())] exposes; it is an association list here,
    oldest key first. *)
Module IntDict.

Section ops.
Context {V : Type}.
Implicit Type d : list (Z * V).

(** [k in d] *)
Definition contains (k : Z) d : bool :=
existsb (fun kv => bool_decide (kv.1 = k)) d.

(** [d[k]] ([None]: [KeyError]) *)
Fixpoint get (k : Z) d : option V :=
match d with
| [] => None
| (k', v) :: d' => if bool_decide (k' = k) then Some v else get k d'
end.

(** [d[k] = v]: an existing key keeps its place, a new key goes last. *)
Fixpoint set (k : Z) (v : V) d : list (Z * V) :=
match d with
| [] => [(k, v)]
| (k', v') :: d' =>
    if bool_decide (k' = k) then (k, v) :: d' else (k', v') :: set k v d'
end.

(** the dictionary left by [d.pop(k)] *)
Definition remove (k : Z) d : list (Z * V) :=
filter (fun kv => kv.1 ≠ k) d.

(** [list(d.values())] *)
Definition values d : list V := d.*2.

(** [list(d.keys())] *)
Definition keys d : list Z := d.*1.

End ops.

End IntDict.

(** ** Process state: the module globals of [routes.py] and the messages
    handed to the Kafka producer *)

Record State := {
  todos_db : list (Z * Todo.t);
  todo_id_counter : Z;
  kafka_outbox : list pydict
}.

(** [todos_db: dict = {}], [todo_id_counter = 1] *)
Definition initial_state : State :=
  {| todos_db := []; todo_id_counter := 1; kafka_outbox := [] |}.

(** ** app/services/kafka_service.py *)

(** [kafka_service.publish_message(message)]: the message is handed to the
    producer; the call never raises and its boolean result is ignored by
    every caller.  The outbox records the messages in the order of the
    calls. *)
Definition publish_message (message : pydict) (st : State) : State :=
  {| todos_db := todos_db st;
     todo_id_counter := todo_id_counter st;
     kafka_outbox := kafka_outbox st ++ [message] |}.

(** ** app/api/routes.py *)

Definition DEMO_USERS : gmap string string :=
  {[ "admin" := "admin123"; "user" := "user123"; "demo" := "demo123" ]}.

Definition LOGIN_FAILED : HTTPException :=
  http_error 401 "Invalid username or password".

(** [login(username, password)] at the instant [now] *)
Definition login (lib : Jose.backend) (settings : Settings) (now : Z)
    (username password : string) : response Token.t :=
  match DEMO_USERS !! username with
  | None => Raise LOGIN_FAILED
  | Some stored_password =>
      if bool_decide (password ≠ stored_password) then Raise LOGIN_FAILED
      else
        match create_access_token lib settings now
                {[ "sub" := PStr username ]} (Some (Datetime.minutes 30)) with
        | Some access_token =>
            Ok {| Token.access_token := access_token;
                  Token.token_type := "bearer" |}
        | None => Raise (http_error 500 "Login error")
        end
  end.

(** [f"Todo with ID {todo_id} not found"] *)
Definition not_found (todo_id : Z) : HTTPException :=
  http_error 404 ("Todo with ID " +:+ pretty todo_id +:+ " not found").

(** The message of the [todo_created] event. *)
Definition created_message (new_todo : Todo.t) (current_user : pyval) : pydict :=
  {[ "id" := PInt (Todo.id new_todo);
     "title" := PStr (Todo.title new_todo);
     "description" := of_optional_str (Todo.description new_todo);
     "completed" := PBool (Todo.completed new_todo);
     "created_at" := PIsoStr (Todo.created_at new_todo);
     "created_by" := current_user;
     "event" := PStr "todo_created" ]}.

(** [create_todo(todo, current_user)] at the instant [now].  The counter
    is advanced before the record is built, so it stays advanced when the
    constructor raises and the handler answers 500. *)
Definition create_todo (st : State) (now : Z) (todo : TodoCreate.t)
    (current_user : pyval) : response Todo.t * State :=
  let new_id := todo_id_counter st in
  let st1 := {| todos_db := todos_db st;
                todo_id_counter := new_id + 1;
                kafka_outbox := kafka_outbox st |} in
  match Todo.init new_id (TodoCreate.title todo) (TodoCreate.description todo)
          (TodoCreate.completed todo) now now with
  | None => (Raise (http_error 500 "Error creating todo"), st1)
  | Some new_todo =>
      let st2 := {| todos_db := IntDict.set new_id new_todo (todos_db st1);
                    todo_id_counter := todo_id_counter st1;
                    kafka_outbox := kafka_outbox st1 |} in
      (Ok new_todo, publish_message (created_message new_todo current_user) st2)
  end.

(** [get_todos(current_user)] *)
Definition get_todos (st : State) (current_user : pyval)
    : response (list Todo.t) * State :=
  (Ok (IntDict.values (todos_db st)), st).

(** [get_todo(todo_id, current_user)] *)
Definition get_todo (st : State) (todo_id : Z) (current_user : pyval)
    : response Todo.t * State :=
  if negb (IntDict.contains todo_id (todos_db st))
  then (Raise (not_found todo_id), st)
  else
    match IntDict.get todo_id (todos_db st) with
    | Some t => (Ok t, st)
    | None => (Raise (http_error 500 "Error retrieving todo"), st)
    end.

(** The message of the [todo_updated] event. *)
Definition updated_message (existing_todo : Todo.t) (current_user : pyval)
    : pydict :=
  {[ "id" := PInt (Todo.id existing_todo);
     "title" := PStr (Todo.title existing_todo);
     "description" := of_optional_str (Todo.description existing_todo);
     "completed" := PBool (Todo.completed existing_todo);
     "updated_at" := PIsoStr (Todo.updated_at existing_todo);
     "updated_by" := current_user;
     "event" := PStr "todo_updated" ]}.

(** [update_todo(todo_id, todo_update, current_user)] at the instant
    [now].  The four attribute assignments act on the object stored in the
    dictionary, so the entry changes in place. *)
Definition update_todo (st : State) (now : Z) (todo_id : Z)
    (todo_update : TodoCreate.t) (current_user : pyval)
    : response Todo.t * State :=
  if negb (IntDict.contains todo_id (todos_db st))
  then (Raise (not_found todo_id), st)
  else
    match IntDict.get todo_id (todos_db st) with
    | None => (Raise (http_error 500 "Error updating todo"), st)
    | Some existing_todo =>
        let existing_todo' :=
          {| Todo.id := Todo.id existing_todo;
             Todo.title := TodoCreate.title todo_update;
             Todo.description := TodoCreate.description todo_update;
             Todo.completed := TodoCreate.completed todo_update;
             Todo.created_at := Todo.created_at existing_todo;
             Todo.updated_at := now |} in
        let st1 := {| todos_db := IntDict.set todo_id existing_todo' (todos_db st);
                      todo_id_counter := todo_id_counter st;
                      kafka_outbox := kafka_outbox st |} in
        (Ok existing_todo',
         publish_message (updated_message existing_todo' current_user) st1)
    end.

(** The message of the [todo_deleted] event. *)
Definition deleted_message (deleted_todo : Todo.t) (current_user : pyval)
    : pydict :=
  {[ "id" := PInt (Todo.id deleted_todo);
     "deleted_by" := current_user;
     "event" := PStr "todo_deleted" ]}.

(** [delete_todo(todo_id, current_user)]; the handler returns no body. *)
Definition delete_todo (st : State) (todo_id : Z) (current_user : pyval)
    : response unit * State :=
  if negb (IntDict.contains todo_id (todos_db st))
  then (Raise (not_found todo_id), st)
  else
    match IntDict.get todo_id (todos_db st) with
    | None => (Raise (http_error 500 "Error deleting todo"), st)
    | Some deleted_todo =>
        let st1 := {| todos_db := IntDict.remove todo_id (todos_db st);
                      todo_id_counter := todo_id_counter st;
                      kafka_outbox := kafka_outbox st |} in
        (Ok tt, publish_message (deleted_message deleted_todo current_user) st1)
    end.

(** ** Request sequences *)

(** One request that reached a todo handler, with the clock reading the
    handler took where it takes one. *)
Inductive request : Type :=
  | Create (now : Z) (todo : TodoCreate.t) (current_user : pyval)
  | List (current_user : pyval)
  | Get (todo_id : Z) (current_user : pyval)
  | Update (now : Z) (todo_id : Z) (todo_update : TodoCreate.t)
           (current_user : pyval)
  | Delete (todo_id : Z) (current_user : pyval).

(** The state a request leaves behind. *)
Definition step (st : State) (rq : request) : State :=
  match rq with
  | Create now todo u => (create_todo st now todo u).2
  | List u => (get_todos st u).2
  | Get i u => (get_todo st i u).2
  | Update now i todo u => (update_todo st now i todo u).2
  | Delete i u => (delete_todo st i u).2
  end.

Definition run (rqs : list request) (st : State) : State := foldl step st rqs.

(** The id a request created, if it is a successful create. *)
Definition created_id (st : State) (rq : request) : option Z :=
  match rq with
  | Create now todo u =>
      match (create_todo st now todo u).1 with
      | Ok t => Some (Todo.id t)
      | Raise _ => None
      end
  | _ => None
  end.

(** The id a request deleted, if it is a successful delete. *)
Definition deleted_id (st : State) (rq : request) : option Z :=
  match rq with
  | Delete i u =>
      match (delete_todo st i u).1 with
      | Ok _ => Some i
      | Raise _ => None
      end
  | _ => None
  end.

(** The ids created, resp. deleted, along a request sequence, in order. *)
Fixpoint created_ids (st : State) (rqs : list request) : list Z :=
  match rqs with
  | [] => []
  | rq :: rqs' => option_list (created_id st rq) ++ created_ids (step st rq) rqs'
  end.

Fixpoint deleted_ids (st : State) (rqs : list request) : list Z :=
  match rqs with
  | [] => []
  | rq :: rqs' => option_list (deleted_id st rq) ++ deleted_ids (step st rq) rqs'
  end.

(** The store proper: the dictionary and the counter, without the
    messages sent to Kafka. *)
Definition store_of (st : State) : list (Z * Todo.t) * Z :=
  (todos_db st, todo_id_counter st).

(** ** Auxiliary notions for the statements *)

(** The claims of a token issued for the subject [u] with expiry [e]. *)
Definition issued_claims (u : string) (e : Z) : pydict :=
  <["exp" := PInt (Datetime.timegm e)]> {[ "sub" := PStr u ]}.

(** The expiry property in the words of the specification: valid strictly
    before [t0 + T], invalid strictly after, invalid at [t0 + T]. *)
Definition expiry_as_specified (lib : Jose.backend) (settings : Settings)
    (t0 T : Z) (s : string) : Prop :=
  forall tok,
    create_access_token lib settings t0 {[ "sub" := PStr s ]} (Some T) = Some tok ->
    forall now,
      (now < t0 + T ->
       exists td, decode_token lib settings now tok = Some td
                  /\ TokenPayload.sub td = PStr s)
      /\ (t0 + T < now -> decode_token lib settings now tok = None)
      /\ (now = t0 + T -> decode_token lib settings now tok = None).

(** The event property in the words of the specification: the message
    published by a successful Create has an entry for every field of the
    created record and one for the creator. *)
Definition created_event_as_specified (st : State) (now : Z)
    (todo : TodoCreate.t) (creator : pyval) : Prop :=
  forall new_todo st',
    create_todo st now todo creator = (Ok new_todo, st') ->
    exists message,
      last (kafka_outbox st') = Some message
      /\ message !! "event" = Some (PStr "todo_created")
      /\ message !! "id" = Some (PInt (Todo.id new_todo))
      /\ message !! "title" = Some (PStr (Todo.title new_todo))
      /\ message !! "description"
         = Some (of_optional_str (Todo.description new_todo))
      /\ message !! "completed" = Some (PBool (Todo.completed new_todo))
      /\ message !! "created_at" = Some (PIsoStr (Todo.created_at new_todo))
      /\ message !! "updated_at" = Some (PIsoStr (Todo.updated_at new_todo))
      /\ message !! "created_by" = Some creator.

(** What is known of a state together with the ids created and deleted
    on the way to it. *)
Record tracked (st : State) (created deleted : list Z) : Prop := {
  tracked_key_id :
    forall k t, (k, t) ∈ todos_db st -> k = Todo.id t;
  tracked_keys_NoDup : NoDup (IntDict.keys (todos_db st));
  tracked_keys :
    forall i, i ∈ IntDict.keys (todos_db st) <-> i ∈ created /\ i ∉ deleted;
  tracked_below_counter :
    forall i, i ∈ created -> i < todo_id_counter st;
  tracked_created_NoDup : NoDup created;
  tracked_deleted_NoDup : NoDup deleted;
  tracked_deleted_created : forall i, i ∈ deleted -> i ∈ created;
  tracked_length :
    (length (IntDict.keys (todos_db st)) + length deleted = length created)%nat
}.

(** The clock reading a request takes, if it takes one. *)
Definition clock_reading (rq : request) : option Z :=
  match rq with
  | Create now _ _ | Update now _ _ _ => Some now
  | _ => None
  end.

(** No stored [updated_at] is later than [now]. *)
Definition stamps_at_most (now : Z) (st : State) : Prop :=
  forall k t, (k, t) ∈ todos_db st -> Todo.updated_at t <= now.

(** ** Further notions for the statements *)

(** The two requests that only read. *)
Definition is_read (rq : request) : bool :=
  match rq with
  | List _ | Get _ _ => true
  | _ => false
  end.

Definition is_create (rq : request) : bool :=
  match rq with
  | Create _ _ _ => true
  | _ => false
  end.

(** The subject a request runs as. *)
Definition current_user_of (rq : request) : pyval :=
  match rq with
  | Create _ _ u | List u | Get _ u | Update _ _ _ u | Delete _ u => u
  end.

(** The body of a create request satisfies the schema of [TodoCreate],
    as the framework checks before it calls the handler. *)
Definition create_input_valid (rq : request) : bool :=
  match rq with
  | Create _ todo _ => TodoCreate.valid todo
  | _ => true
  end.

(** Whether a request is a create, update or delete whose handler
    returns normally. *)
Definition mutation_succeeds (st : State) (rq : request) : bool :=
  match rq with
  | Create now todo u =>
      match (create_todo st now todo u).1 with Ok _ => true | Raise _ => false end
  | Update now i todo u =>
      match (update_todo st now i todo u).1 with Ok _ => true | Raise _ => false end
  | Delete i u =>
      match (delete_todo st i u).1 with Ok _ => true | Raise _ => false end
  | _ => false
  end.

(** The number of successful mutations along a request sequence. *)
Fixpoint successful_mutations (st : State) (rqs : list request) : nat :=
  match rqs with
  | [] => 0%nat
  | rq :: rqs' =>
      ((if mutation_succeeds st rq then 1 else 0)
       + successful_mutations (step st rq) rqs')%nat
  end.

(** Inside [KafkaService.publish_message]: [json.dumps(message)] does
    not raise. *)
Definition json_dumps_ok (message : pydict) : bool :=
  bool_decide (map_Forall (fun _ v => json_serializable v = true) message).

(** Inside [KafkaService.publish_message]: [message.get('id', 'unknown')],
    the object whose [str()] becomes the key of the Kafka record. *)
Definition message_key (message : pydict) : pyval :=
  default (PStr "unknown") (message !! "id").

Definition EVENT_NAMES : list string :=
  ["todo_created"; "todo_updated"; "todo_deleted"].

(** A message the producer can take: it serializes, its key is the id of
    a todo handed out so far, and it names one of the three events. *)
Definition publishable (counter : Z) (message : pydict) : Prop :=
  json_dumps_ok message = true
  /\ (exists i, message_key message = PInt i /\ 1 <= i < counter)
  /\ (exists e, message !! "event" = Some (PStr e) /\ e ∈ EVENT_NAMES).

(** Every stored key is the id of its record and a positive id below
    the counter, and every message of the outbox is publishable. *)
Definition outbox_invariant (st : State) : Prop :=
  1 <= todo_id_counter st
  /\ (forall k t, (k, t) ∈ todos_db st ->
        k = Todo.id t /\ 1 <= k < todo_id_counter st)
  /\ Forall (publishable (todo_id_counter st)) (kafka_outbox st).

(** The clock readings taken along a request sequence, in order. *)
Definition clock_readings (rqs : list request) : list Z :=
  omap clock_reading rqs.

(** * Properties *)

(** ** The dictionary operations *)

Section IntDict_facts.
Context {V : Type}.
Implicit Types (d : list (Z * V)) (k : Z) (v : V).

Lemma contains_elem_of k d :
  IntDict.contains k d = true <-> k ∈ IntDict.keys d.
Proof.
  unfold IntDict.contains, IntDict.keys.
  induction d as [|[k' v'] d IH]; simpl.
  - split; [done | by intros ?%elem_of_nil].
  - rewrite orb_true_iff, IH, elem_of_cons, bool_decide_eq_true. simpl.
    intuition congruence.
Qed.

Lemma contains_false k d :
  IntDict.contains k d = false <-> k ∉ IntDict.keys d.
Proof.
  rewrite <- contains_elem_of. destruct (IntDict.contains k d); intuition congruence.
Qed.

Lemma get_is_Some k d :
  is_Some (IntDict.get k d) <-> k ∈ IntDict.keys d.
Proof.
  unfold IntDict.keys.
  induction d as [|[k' v'] d IH]; simpl.
  - split; [by intros [? ?] | by intros ?%elem_of_nil].
  - rewrite elem_of_cons. case_bool_decide; subst.
    + split; eauto.
    + rewrite IH. intuition congruence.
Qed.

Lemma get_None k d : IntDict.get k d = None <-> k ∉ IntDict.keys d.
Proof. rewrite <- get_is_Some, eq_None_not_Some. done. Qed.

Lemma get_elem_of k v d : IntDict.get k d = Some v -> (k, v) ∈ d.
Proof.
  induction d as [|[k' v'] d IH]; simpl; [done|].
  case_bool_decide; subst.
  - intros [= ->]. left.
  - intros ?. right. auto.
Qed.

Lemma get_set_eq k v d : IntDict.get k (IntDict.set k v d) = Some v.
Proof.
  induction d as [|[k' v'] d IH]; simpl.
  - by rewrite bool_decide_eq_true_2.
  - case_bool_decide; simpl.
    + by rewrite bool_decide_eq_true_2.
    + by rewrite bool_decide_eq_false_2.
Qed.

Lemma get_set_ne k k' v d :
  k ≠ k' -> IntDict.get k' (IntDict.set k v d) = IntDict.get k' d.
Proof.
  intros Hne. induction d as [|[k0 v0] d IH]; simpl.
  - by rewrite bool_decide_eq_false_2.
  - case_bool_decide; subst; simpl.
    + by rewrite !bool_decide_eq_false_2.
    + by rewrite IH.
Qed.

Lemma keys_set_present k v d :
  k ∈ IntDict.keys d -> IntDict.keys (IntDict.set k v d) = IntDict.keys d.
Proof.
  unfold IntDict.keys.
  induction d as [|[k0 v0] d IH]; simpl.
  - by intros ?%elem_of_nil.
  - intros Hin. case_bool_decide; subst; simpl; [done|].
    f_equal. apply IH. apply elem_of_cons in Hin as [?|?]; [congruence | done].
Qed.

Lemma keys_set_absent k v d :
  k ∉ IntDict.keys d -> IntDict.keys (IntDict.set k v d) = IntDict.keys d ++ [k].
Proof.
  unfold IntDict.keys.
  induction d as [|[k0 v0] d IH]; simpl; [done|].
  intros Hin. apply not_elem_of_cons in Hin as [? ?].
  rewrite bool_decide_eq_false_2 by done. simpl. f_equal. auto.
Qed.

Lemma elem_of_set k v d kv :
  kv ∈ IntDict.set k v d -> kv = (k, v) \/ kv ∈ d.
Proof.
  induction d as [|[k0 v0] d IH]; simpl.
  - intros ->%list_elem_of_singleton. by left.
  - case_bool_decide; subst; rewrite !elem_of_cons; intuition auto.
Qed.

Lemma keys_remove k d :
  IntDict.keys (IntDict.remove k d) = filter (fun i => i ≠ k) (IntDict.keys d).
Proof.
  unfold IntDict.keys, IntDict.remove.
  induction d as [|[k0 v0] d IH]; simpl; [done|].
  rewrite !filter_cons. simpl.
  destruct (decide (k0 ≠ k)); simpl; [f_equal|]; exact IH.
Qed.

Lemma get_remove_eq k d : IntDict.get k (IntDict.remove k d) = None.
Proof.
  apply get_None. rewrite keys_remove, list_elem_of_filter. tauto.
Qed.

Lemma get_remove_ne k k' d :
  k ≠ k' -> IntDict.get k' (IntDict.remove k d) = IntDict.get k' d.
Proof.
  intros Hne. unfold IntDict.remove.
  induction d as [|[k0 v0] d IH]; simpl; [done|].
  rewrite filter_cons. simpl. case_decide; simpl.
  - by rewrite IH.
  - subst. by rewrite bool_decide_eq_false_2.
Qed.

Lemma elem_of_remove k d kv : kv ∈ IntDict.remove k d -> kv ∈ d.
Proof. unfold IntDict.remove. by intros [_ ?]%list_elem_of_filter. Qed.

End IntDict_facts.

(** ** Tokens issued by the service *)

Lemma timegm_in_range e :
  Datetime.in_range e = true ->
  Datetime.in_range (Datetime.timegm e * Datetime.US_PER_SECOND) = true.
Proof.
  unfold Datetime.in_range, Datetime.timegm, Datetime.MIN, Datetime.MAX,
    Datetime.US_PER_SECOND.
  rewrite !andb_true_iff, !Z.leb_le. intros [Hlo Hhi].
  pose proof (Z.mul_div_le e 1000000 ltac:(lia)).
  pose proof (Z.mod_pos_bound e 1000000 ltac:(lia)).
  pose proof (Z.div_mod e 1000000 ltac:(lia)).
  lia.
Qed.

Lemma timegm_mono a b : a <= b -> Datetime.timegm a <= Datetime.timegm b.
Proof. intros. apply Z.div_le_mono; [done | done]. Qed.

Lemma convert_time_claims_issued (u : string) (e : Z) :
  foldl Jose.convert_time_claim (<["exp" := PDatetime e]> {[ "sub" := PStr u ]})
    Jose.TIME_CLAIMS
  = issued_claims u e.
Proof.
  assert (Hexp : Jose.convert_time_claim
                   (<["exp" := PDatetime e]> {[ "sub" := PStr u ]}) "exp"
                 = issued_claims u e).
  { unfold Jose.convert_time_claim. rewrite lookup_insert_eq.
    by rewrite insert_insert_eq. }
  assert (Hother : forall n : string, n ≠ "exp" -> n ≠ "sub" ->
            Jose.convert_time_claim (issued_claims u e) n = issued_claims u e).
  { intros n ? ?. unfold Jose.convert_time_claim, issued_claims.
    by rewrite lookup_insert_ne, lookup_singleton_ne by done. }
  simpl. rewrite Hexp. by rewrite !Hother by done.
Qed.

Lemma encode_issued lib (u : string) (e : Z) (key alg : string) :
  Jose.signs lib alg key = true ->
  Jose.encode lib (<["exp" := PDatetime e]> {[ "sub" := PStr u ]}) key alg
  = Some (Jose.Signed alg key (issued_claims u e)).
Proof.
  intros Hk. unfold Jose.encode.
  rewrite convert_time_claims_issued, Hk. simpl.
  rewrite bool_decide_eq_true_2; [done|].
  unfold issued_claims. apply map_Forall_insert_2; [done|].
  by apply map_Forall_singleton.
Qed.

Lemma create_access_token_issued lib settings now (u : string) expires_delta :
  Jose.signs lib (ALGORITHM settings) (SECRET_KEY settings) = true ->
  create_access_token lib settings now {[ "sub" := PStr u ]} expires_delta
  = (fun e => Jose.Signed (ALGORITHM settings) (SECRET_KEY settings)
                (issued_claims u e))
    <$> Datetime.add now (effective_delta settings expires_delta).
Proof.
  intros Hk. unfold create_access_token.
  destruct (Datetime.add _ _) as [e|]; simpl; [|done].
  by apply encode_issued.
Qed.

Lemma validate_claims_issued (u : string) (e now : Z) :
  Jose.validate_claims (issued_claims u e) now
  = negb (Datetime.timegm e <? Datetime.timegm now).
Proof.
  unfold Jose.validate_claims, Jose.validate_iat, Jose.validate_nbf,
    Jose.validate_exp, Jose.validate_aud, Jose.validate_str,
    Jose.validate_at_hash, issued_claims.
  rewrite lookup_insert_eq.
  rewrite !lookup_insert_ne, !lookup_singleton_ne, lookup_singleton_eq by done.
  simpl. rewrite !bool_decide_eq_true_2 by done.
  by rewrite !andb_true_r.
Qed.

Lemma decode_token_issued lib settings now (u : string) (e : Z) :
  Datetime.in_range e = true ->
  decode_token lib settings now
    (Jose.Signed (ALGORITHM settings) (SECRET_KEY settings) (issued_claims u e))
  = if Jose.verifies lib (ALGORITHM settings) (SECRET_KEY settings)
         (SECRET_KEY settings)
       && negb (Datetime.timegm e <? Datetime.timegm now)
    then Some {| TokenPayload.sub := PStr u;
                 TokenPayload.exp := Datetime.timegm e * Datetime.US_PER_SECOND |}
    else None.
Proof.
  intros Hr. unfold decode_token, decode_token_with, Jose.decode.
  rewrite validate_claims_issued.
  rewrite bool_decide_eq_true_2 by (by apply list_elem_of_singleton).
  simpl. destruct (_ && _); [|done].
  unfold token_payload_of, payload_get, issued_claims.
  rewrite lookup_insert_eq, lookup_insert_ne, lookup_singleton_eq by done.
  simpl. by rewrite (timegm_in_range e Hr).
Qed.

Lemma create_access_token_inv lib settings t0 (s : string) expires_delta tok :
  create_access_token lib settings t0 {[ "sub" := PStr s ]} expires_delta = Some tok ->
  Jose.signs lib (ALGORITHM settings) (SECRET_KEY settings) = true
  /\ Datetime.in_range (t0 + effective_delta settings expires_delta) = true
  /\ tok = Jose.Signed (ALGORITHM settings) (SECRET_KEY settings)
             (issued_claims s (t0 + effective_delta settings expires_delta)).
Proof.
  unfold create_access_token, Datetime.add.
  destruct (Datetime.in_range _) eqn:Hr; [|done].
  destruct (Jose.signs lib (ALGORITHM settings) (SECRET_KEY settings)) eqn:Hk.
  - rewrite encode_issued by done. by intros [= <-].
  - unfold Jose.encode. by rewrite Hk.
Qed.

(** ** Login *)

(** C1.  For every (username, password) pair of the credential table,
    login succeeds with a bearer token whose verification (at any instant
    up to the token's expiry, the login instant included) yields that
    username as subject; this is when the token library signs with the
    configured algorithm and key and accepts its own signature under that
    key, and the clock leaves room for the thirty minutes.  For every
    other pair, whatever the library and the configuration, absent username or
    mismatched password alike, login fails with the same 401 error whose
    message is 'Invalid username or password'. *)
Theorem login_table_roundtrip lib settings now (username password : string) :
  (DEMO_USERS !! username = Some password ->
   Jose.signs lib (ALGORITHM settings) (SECRET_KEY settings) = true ->
   Jose.verifies lib (ALGORITHM settings) (SECRET_KEY settings)
     (SECRET_KEY settings) = true ->
   Datetime.in_range (now + Datetime.minutes 30) = true ->
   exists tok td,
     login lib settings now username password
     = Ok {| Token.access_token := tok; Token.token_type := "bearer" |}
     /\ TokenPayload.sub td = PStr username
     /\ forall now', now' <= now + Datetime.minutes 30 ->
          decode_token lib settings now' tok = Some td)
  /\ (DEMO_USERS !! username ≠ Some password ->
      login lib settings now username password = Raise LOGIN_FAILED
      /\ status_code LOGIN_FAILED = 401
      /\ detail LOGIN_FAILED = "Invalid username or password").
Proof.
  split.
  - intros Hu Hk Hv Hr. unfold login. rewrite Hu.
    rewrite bool_decide_eq_false_2 by (intros ?; done).
    rewrite create_access_token_issued by done.
    unfold effective_delta. rewrite bool_decide_eq_false_2 by done.
    unfold Datetime.add. rewrite Hr. simpl.
    eexists _, {| TokenPayload.sub := PStr username |}.
    split; [done|]. split; [done|].
    intros now' Hle. rewrite decode_token_issued, Hv by done.
    apply timegm_mono in Hle.
    destruct (Z.ltb_spec (Datetime.timegm (now + Datetime.minutes 30))
                (Datetime.timegm now')); [lia | done].
  - intros Hne. split; [|done]. unfold login.
    destruct (DEMO_USERS !! username) as [stored|]; [|done].
    rewrite bool_decide_eq_true_2; [done|]. congruence.
Qed.

Lemma login_table_roundtrip_witness :
  exists tok td,
    login Jose.hmac default_settings 1700000000123456 "admin" "admin123"
    = Ok {| Token.access_token := tok; Token.token_type := "bearer" |}
    /\ TokenPayload.sub td = PStr "admin"
    /\ forall now', now' <= 1700000000123456 + Datetime.minutes 30 ->
         decode_token Jose.hmac default_settings now' tok = Some td.
Proof.
  apply (proj1 (login_table_roundtrip Jose.hmac default_settings 1700000000123456
                  "admin" "admin123"));
    vm_compute; reflexivity.
Defined.

(** ** Token expiry *)

(** C6, as stated, fails: a token issued at 2023-11-14T22:13:20 for thirty
    minutes still verifies at the instant of its expiry. *)
Lemma expiry_as_specified_fails :
  ~ expiry_as_specified Jose.hmac default_settings 1700000000000000
      (Datetime.minutes 30) "admin".
Proof.
  intros H.
  destruct (create_access_token Jose.hmac default_settings 1700000000000000
              {[ "sub" := PStr "admin" ]} (Some (Datetime.minutes 30)))
    as [tok|] eqn:Htok; [|by vm_compute in Htok].
  destruct (H tok Htok (1700000000000000 + Datetime.minutes 30))
    as (_ & _ & Hat).
  specialize (Hat eq_refl).
  apply create_access_token_inv in Htok as (_ & _ & ->).
  by vm_compute in Hat.
Qed.

(** C6, amended.  A token issued at [t0] expires at [t0 + T], where [T]
    is the duration given, or the configured default when none or the zero
    duration is given.  The library compares whole seconds: when it
    accepts its own signature under the configured key, the token
    verifies, yielding its subject, at every instant whose clock second is
    at most that of the expiry (so at every instant up to and including
    the expiry itself); and the token is invalid at every instant whose
    clock second is greater (so from one second after the expiry on). *)
Theorem token_expiry_whole_seconds lib settings t0 expires_delta (s : string) tok now :
  create_access_token lib settings t0 {[ "sub" := PStr s ]} expires_delta = Some tok ->
  let expire := t0 + effective_delta settings expires_delta in
  let valid :=
    Some {| TokenPayload.sub := PStr s;
            TokenPayload.exp := Datetime.timegm expire * Datetime.US_PER_SECOND |} in
  (Jose.verifies lib (ALGORITHM settings) (SECRET_KEY settings)
     (SECRET_KEY settings) = true ->
   (Datetime.timegm now <= Datetime.timegm expire ->
    decode_token lib settings now tok = valid)
   /\ (now <= expire -> decode_token lib settings now tok = valid))
  /\ (Datetime.timegm expire < Datetime.timegm now ->
      decode_token lib settings now tok = None)
  /\ (expire + Datetime.US_PER_SECOND <= now ->
      decode_token lib settings now tok = None).
Proof.
  intros (Hk & Hr & ->)%create_access_token_inv expire valid.
  rewrite decode_token_issued by done. fold expire.
  assert (Hnext : expire + Datetime.US_PER_SECOND <= now ->
                  Datetime.timegm expire < Datetime.timegm now).
  { intros Hle. apply timegm_mono in Hle. revert Hle.
    unfold Datetime.timegm, Datetime.US_PER_SECOND.
    replace (expire + 1000000) with (expire + 1 * 1000000) by lia.
    rewrite Z.div_add by lia. lia. }
  assert (Hprev : now <= expire ->
                  Datetime.timegm now <= Datetime.timegm expire)
    by apply timegm_mono.
  destruct (Z.ltb_spec (Datetime.timegm expire) (Datetime.timegm now));
    rewrite ?andb_false_r.
  - repeat split; intros; try done; lia.
  - split; [intros ->; split; intros; done|].
    split; intros; lia.
Qed.

Lemma token_expiry_whole_seconds_witness :
  decode_token Jose.hmac default_settings (1700000000000000 + Datetime.minutes 30)
    (Jose.Signed "HS256" (SECRET_KEY default_settings)
       (issued_claims "admin" (1700000000000000 + Datetime.minutes 30)))
  = Some {| TokenPayload.sub := PStr "admin";
            TokenPayload.exp := 1700001800000000 |}.
Proof.
  refine (proj2 (proj1
    (token_expiry_whole_seconds Jose.hmac default_settings 1700000000000000
       (Some (Datetime.minutes 30)) "admin" _
       (1700000000000000 + Datetime.minutes 30) _) _) _).
  - vm_compute. reflexivity.
  - vm_compute. reflexivity.
  - vm_compute. discriminate.
Defined.

(** ** The authentication gate *)

(** Whatever the token library returns for a token, a payload that
    [decode_token] hands out has a [str] as subject. *)
Lemma token_payload_of_sub (payload : pydict) td :
  token_payload_of payload = Some td ->
  TokenPayload.sub td ≠ PNone /\ is_str (TokenPayload.sub td) = true.
Proof.
  unfold token_payload_of, TokenPayload.init.
  case_bool_decide as Hsub; [done|].
  case_bool_decide; [done|].
  destruct (Datetime.fromtimestamp _); [|done].
  destruct (is_str (payload_get payload "sub")) eqn:Hstr; [|done].
  intros [= <-]. simpl. done.
Qed.

Lemma get_current_user_with_rejection lib_decode token e :
  get_current_user_with lib_decode token = Raise e ->
  e = unauthorized "Invalid or expired token".
Proof.
  unfold get_current_user_with, decode_token_with.
  destruct (lib_decode token) as [payload|]; [|by intros [= <-]].
  destruct (token_payload_of payload) as [td|] eqn:Htd; [|by intros [= <-]].
  apply token_payload_of_sub in Htd as [Hsub _].
  by rewrite bool_decide_eq_false_2.
Qed.

(** C10.  Whenever [decode_token] returns a payload, its [sub] is a
    string and not [None]; hence the gate never answers with the 401
    'Could not validate credentials', and every rejection of the gate is
    the 401 'Invalid or expired token' with the Bearer challenge. *)
Theorem gate_second_rejection_unreachable lib settings now (token : Jose.token) :
  (forall td, decode_token lib settings now token = Some td ->
     TokenPayload.sub td ≠ PNone /\ is_str (TokenPayload.sub td) = true)
  /\ get_current_user lib settings now token
     ≠ Raise (unauthorized "Could not validate credentials")
  /\ (forall e, get_current_user lib settings now token = Raise e ->
        e = unauthorized "Invalid or expired token"
        /\ status_code e = 401 /\ detail e = "Invalid or expired token").
Proof.
  split; [|split].
  - intros td. unfold decode_token, decode_token_with.
    destruct (Jose.decode _ _ _ _); [|done]. apply token_payload_of_sub.
  - intros He. by apply get_current_user_with_rejection in He.
  - intros e ->%get_current_user_with_rejection. done.
Qed.

Lemma gate_second_rejection_unreachable_witness :
  TokenPayload.sub {| TokenPayload.sub := PStr "admin";
                      TokenPayload.exp := 1700001800000000 |} ≠ PNone
  /\ is_str (PStr "admin") = true.
Proof.
  apply (proj1 (gate_second_rejection_unreachable Jose.hmac default_settings
                  1700000000000000
                  (Jose.Signed "HS256" (SECRET_KEY default_settings)
                     (issued_claims "admin" 1700001800000000)))).
  vm_compute. reflexivity.
Defined.

(** ** The todo handlers *)

Lemma Todo_init_valid (todo : TodoCreate.t) (i created updated : Z) :
  TodoCreate.valid todo = true ->
  Todo.init i (TodoCreate.title todo) (TodoCreate.description todo)
    (TodoCreate.completed todo) created updated
  = Some {| Todo.id := i;
            Todo.title := TodoCreate.title todo;
            Todo.description := TodoCreate.description todo;
            Todo.completed := TodoCreate.completed todo;
            Todo.created_at := created;
            Todo.updated_at := updated |}.
Proof. unfold TodoCreate.valid, Todo.init. by intros ->. Qed.

(** The limits count characters, not bytes: 200 letters of two bytes
    each make a valid title, 201 do not. *)
Lemma title_ok_counts_characters :
  TodoCreate.title_ok (String.concat "" (replicate 200 "é")) = true
  /\ TodoCreate.title_ok (String.concat "" (replicate 201 "é")) = false
  /\ TodoCreate.title_ok "" = false.
Proof. by vm_compute. Qed.

Lemma contains_get_Some (d : list (Z * Todo.t)) k :
  IntDict.contains k d = true -> exists t, IntDict.get k d = Some t.
Proof. rewrite contains_elem_of, <- get_is_Some. by intros [t ?]; exists t. Qed.

Lemma get_Some_contains (d : list (Z * Todo.t)) k t :
  IntDict.get k d = Some t -> IntDict.contains k d = true.
Proof. intros H. apply contains_elem_of, get_is_Some. by exists t. Qed.

(** C2.  For every valid input (a title of 1 to 200 characters, a
    description, if any, of at most 1000) and every state, Create returns the
    record made of the fresh id (the counter), the creation instant as
    [created_at] and [updated_at], and the input's title, description and
    completed flag; the counter advances by one, and Get on that id then
    returns exactly this record. *)
Theorem create_then_get (st : State) (now : Z) (todo : TodoCreate.t)
    (creator reader : pyval) :
  TodoCreate.valid todo = true ->
  let new_todo :=
    {| Todo.id := todo_id_counter st;
       Todo.title := TodoCreate.title todo;
       Todo.description := TodoCreate.description todo;
       Todo.completed := TodoCreate.completed todo;
       Todo.created_at := now;
       Todo.updated_at := now |} in
  exists st',
    create_todo st now todo creator = (Ok new_todo, st')
    /\ todo_id_counter st' = todo_id_counter st + 1
    /\ get_todo st' (Todo.id new_todo) reader = (Ok new_todo, st').
Proof.
  intros Hv new_todo. unfold create_todo.
  rewrite Todo_init_valid by done. fold new_todo. simpl.
  eexists. split; [done|]. split; [done|].
  unfold get_todo. simpl.
  rewrite (get_Some_contains _ _ new_todo) by apply get_set_eq. simpl.
  by rewrite get_set_eq.
Qed.

Lemma create_then_get_witness :
  let todo := {| TodoCreate.title := String.concat "" (replicate 101 "é");
                 TodoCreate.description := Some "crème fraîche";
                 TodoCreate.completed := false |} in
  let new_todo := {| Todo.id := todo_id_counter initial_state;
                     Todo.title := TodoCreate.title todo;
                     Todo.description := TodoCreate.description todo;
                     Todo.completed := TodoCreate.completed todo;
                     Todo.created_at := 1700000000000000;
                     Todo.updated_at := 1700000000000000 |} in
  exists st',
    create_todo initial_state 1700000000000000 todo (PStr "admin")
    = (Ok new_todo, st')
    /\ todo_id_counter st' = todo_id_counter initial_state + 1
    /\ get_todo st' (Todo.id new_todo) (PStr "demo") = (Ok new_todo, st').
Proof.
  intros todo new_todo.
  apply (create_then_get initial_state 1700000000000000 todo
           (PStr "admin") (PStr "demo")).
  vm_compute. reflexivity.
Defined.

(** C3.  For every id present in the store, Update returns the record
    with its id and [created_at] unchanged, its title, description and
    completed flag set to the supplied values and [updated_at] set to the
    current time, which is no earlier than the previous [updated_at] when
    the clock has not gone back since that was written.  The record is
    stored under the same id, every other id maps to what it mapped to
    before, and the order of the keys and the counter are unchanged. *)
Theorem update_overwrites_in_place (st : State) (now todo_id : Z)
    (todo_update : TodoCreate.t) (current_user : pyval) (old : Todo.t) :
  IntDict.get todo_id (todos_db st) = Some old ->
  Todo.updated_at old <= now ->
  exists updated st',
    update_todo st now todo_id todo_update current_user = (Ok updated, st')
    /\ Todo.id updated = Todo.id old
    /\ Todo.created_at updated = Todo.created_at old
    /\ Todo.title updated = TodoCreate.title todo_update
    /\ Todo.description updated = TodoCreate.description todo_update
    /\ Todo.completed updated = TodoCreate.completed todo_update
    /\ Todo.updated_at updated = now
    /\ Todo.updated_at old <= Todo.updated_at updated
    /\ IntDict.get todo_id (todos_db st') = Some updated
    /\ (forall other, other ≠ todo_id ->
          IntDict.get other (todos_db st') = IntDict.get other (todos_db st))
    /\ IntDict.keys (todos_db st') = IntDict.keys (todos_db st)
    /\ todo_id_counter st' = todo_id_counter st.
Proof.
  intros Hget Hclock. unfold update_todo.
  rewrite (get_Some_contains _ _ _ Hget), Hget. simpl.
  eexists _, _. split; [done|]. simpl.
  repeat split; try done.
  - apply get_set_eq.
  - intros other Hne. by apply get_set_ne.
  - apply keys_set_present, get_is_Some. by exists old.
Qed.

Lemma update_overwrites_in_place_witness :
  let old := {| Todo.id := 1; Todo.title := "Buy milk"; Todo.description := None;
                Todo.completed := false; Todo.created_at := 100;
                Todo.updated_at := 100 |} in
  let st := {| todos_db := [(1, old)]; todo_id_counter := 2;
               kafka_outbox := [] |} in
  exists updated st',
    update_todo st 250 1
      {| TodoCreate.title := "Buy oat milk"; TodoCreate.description := None;
         TodoCreate.completed := true |} (PStr "user")
    = (Ok updated, st')
    /\ Todo.id updated = 1
    /\ Todo.created_at updated = 100
    /\ Todo.title updated = "Buy oat milk"
    /\ Todo.description updated = None
    /\ Todo.completed updated = true
    /\ Todo.updated_at updated = 250
    /\ 100 <= Todo.updated_at updated
    /\ IntDict.get 1 (todos_db st') = Some updated
    /\ (forall other, other ≠ 1 ->
          IntDict.get other (todos_db st') = IntDict.get other (todos_db st))
    /\ IntDict.keys (todos_db st') = [1]
    /\ todo_id_counter st' = 2.
Proof.
  intros old st.
  apply (update_overwrites_in_place st 250 1
           {| TodoCreate.title := "Buy oat milk"; TodoCreate.description := None;
              TodoCreate.completed := true |} (PStr "user") old).
  - reflexivity.
  - simpl. lia.
Defined.

Lemma not_found_status todo_id : status_code (not_found todo_id) = 404.
Proof. done. Qed.

Lemma contains_remove (d : list (Z * Todo.t)) k :
  IntDict.contains k (IntDict.remove k d) = false.
Proof. apply contains_false. rewrite keys_remove, list_elem_of_filter. tauto. Qed.

(** C4.  For every id absent from the store, Get, Update and Delete each
    raise the 404 not-found error and return the state as it was:
    dictionary, counter and Kafka outbox unchanged.  After a successful
    Delete of an id, Get, Update and Delete of that id raise the 404. *)
Theorem absent_id_not_found (st : State) (todo_id : Z) :
  (IntDict.contains todo_id (todos_db st) = false ->
   forall now todo_update current_user,
     get_todo st todo_id current_user = (Raise (not_found todo_id), st)
     /\ update_todo st now todo_id todo_update current_user
        = (Raise (not_found todo_id), st)
     /\ delete_todo st todo_id current_user = (Raise (not_found todo_id), st)
     /\ status_code (not_found todo_id) = 404)
  /\ (forall deleter st',
        delete_todo st todo_id deleter = (Ok tt, st') ->
        forall now todo_update current_user,
          get_todo st' todo_id current_user = (Raise (not_found todo_id), st')
          /\ update_todo st' now todo_id todo_update current_user
             = (Raise (not_found todo_id), st')
          /\ delete_todo st' todo_id current_user
             = (Raise (not_found todo_id), st')).
Proof.
  assert (Habsent : forall s : State,
            IntDict.contains todo_id (todos_db s) = false ->
            forall now todo_update current_user,
              get_todo s todo_id current_user = (Raise (not_found todo_id), s)
              /\ update_todo s now todo_id todo_update current_user
                 = (Raise (not_found todo_id), s)
              /\ delete_todo s todo_id current_user
                 = (Raise (not_found todo_id), s)).
  { intros s Hc now todo_update current_user.
    unfold get_todo, update_todo, delete_todo. by rewrite Hc. }
  split.
  - intros Hc now todo_update current_user.
    destruct (Habsent st Hc now todo_update current_user) as (? & ? & ?).
    done.
  - intros deleter st' Hdel. apply Habsent.
    revert Hdel. unfold delete_todo.
    destruct (IntDict.contains todo_id (todos_db st)); simpl; [|done].
    destruct (IntDict.get todo_id (todos_db st)); [|done].
    intros [= <-]. simpl. apply contains_remove.
Qed.

Lemma absent_id_not_found_witness :
  get_todo initial_state 7 (PStr "admin")
  = (Raise (not_found 7), initial_state)
  /\ update_todo initial_state 5 7
       {| TodoCreate.title := "x"; TodoCreate.description := None;
          TodoCreate.completed := false |} (PStr "admin")
     = (Raise (not_found 7), initial_state)
  /\ delete_todo initial_state 7 (PStr "admin")
     = (Raise (not_found 7), initial_state)
  /\ status_code (not_found 7) = 404.
Proof.
  apply (proj1 (absent_id_not_found initial_state 7)).
  reflexivity.
Defined.

(** ** The subject plays no part in the store *)

(** C9.  Todo records have no owner field ([Todo.t]), and for every state
    and every two subjects, List, Get, Update, Delete (and Create) return
    the same value or error and leave the same store, dictionary and
    counter; the subject only enters the message sent to Kafka. *)
Theorem handlers_subject_blind (st : State) (now todo_id : Z)
    (todo : TodoCreate.t) (u v : pyval) :
  ((get_todos st u).1 = (get_todos st v).1
   /\ store_of (get_todos st u).2 = store_of (get_todos st v).2)
  /\ ((get_todo st todo_id u).1 = (get_todo st todo_id v).1
      /\ store_of (get_todo st todo_id u).2 = store_of (get_todo st todo_id v).2)
  /\ ((update_todo st now todo_id todo u).1 = (update_todo st now todo_id todo v).1
      /\ store_of (update_todo st now todo_id todo u).2
         = store_of (update_todo st now todo_id todo v).2)
  /\ ((delete_todo st todo_id u).1 = (delete_todo st todo_id v).1
      /\ store_of (delete_todo st todo_id u).2
         = store_of (delete_todo st todo_id v).2)
  /\ ((create_todo st now todo u).1 = (create_todo st now todo v).1
      /\ store_of (create_todo st now todo u).2
         = store_of (create_todo st now todo v).2).
Proof.
  unfold get_todos, get_todo, update_todo, delete_todo, create_todo.
  repeat split; try done.
  all: repeat match goal with
         | |- context [if ?b then _ else _] => destruct b; simpl
         | |- context [match ?o with Some _ => _ | None => _ end] =>
             destruct o; simpl
         end; done.
Qed.

(** ** The [todo_created] event *)

(** C8, as stated, fails: the message of the first create has no
    [updated_at] entry. *)
Lemma created_event_as_specified_fails :
  ~ created_event_as_specified initial_state 1700000000000000
      {| TodoCreate.title := "Buy milk"; TodoCreate.description := None;
         TodoCreate.completed := false |} (PStr "admin").
Proof.
  intros H.
  destruct (H _ _ eq_refl) as (message & Hlast & _ & _ & _ & _ & _ & _ & Hupd & _).
  simpl in Hlast. injection Hlast as <-.
  by vm_compute in Hupd.
Qed.

(** C8, amended.  For every successful Create the handler hands exactly
    one message to the publisher, with seven entries: the record's [id],
    [title], [description], [completed] and [created_at] (in ISO format),
    the creator's subject as [created_by], and [event] = 'todo_created'.
    The record's [updated_at], equal to [created_at] at that moment, has
    no entry of its own. *)
Theorem created_event_contents (st : State) (now : Z) (todo : TodoCreate.t)
    (creator : pyval) new_todo st' :
  create_todo st now todo creator = (Ok new_todo, st') ->
  exists message,
    kafka_outbox st' = kafka_outbox st ++ [message]
    /\ message !! "event" = Some (PStr "todo_created")
    /\ message !! "id" = Some (PInt (Todo.id new_todo))
    /\ message !! "title" = Some (PStr (Todo.title new_todo))
    /\ message !! "description"
       = Some (of_optional_str (Todo.description new_todo))
    /\ message !! "completed" = Some (PBool (Todo.completed new_todo))
    /\ message !! "created_at" = Some (PIsoStr (Todo.created_at new_todo))
    /\ message !! "created_by" = Some creator
    /\ message !! "updated_at" = None
    /\ dom message = list_to_set ["id"; "title"; "description"; "completed";
                                  "created_at"; "created_by"; "event"]
    /\ Todo.updated_at new_todo = Todo.created_at new_todo.
Proof.
  unfold create_todo, Todo.init.
  destruct (_ && _); [|done]. intros [= <- <-]. simpl.
  eexists. split; [done|]. unfold created_message. simpl.
  repeat split;
    try (repeat (rewrite lookup_insert_ne by done);
         first [ apply lookup_insert_eq | apply lookup_singleton_eq
               | apply lookup_singleton_ne; done ]).
Qed.

Lemma created_event_contents_witness :
  let todo := {| TodoCreate.title := "Buy milk"; TodoCreate.description := None;
                 TodoCreate.completed := false |} in
  let new_todo := {| Todo.id := 1; Todo.title := "Buy milk";
                     Todo.description := None; Todo.completed := false;
                     Todo.created_at := 1700000000000000;
                     Todo.updated_at := 1700000000000000 |} in
  let st' := {| todos_db := [(1, new_todo)]; todo_id_counter := 2;
                kafka_outbox := [created_message new_todo (PStr "admin")] |} in
  exists message : pydict,
    kafka_outbox st' = kafka_outbox initial_state ++ [message]
    /\ message !! "event" = Some (PStr "todo_created")
    /\ message !! "id" = Some (PInt (Todo.id new_todo))
    /\ message !! "title" = Some (PStr (Todo.title new_todo))
    /\ message !! "description"
       = Some (of_optional_str (Todo.description new_todo))
    /\ message !! "completed" = Some (PBool (Todo.completed new_todo))
    /\ message !! "created_at" = Some (PIsoStr (Todo.created_at new_todo))
    /\ message !! "created_by" = Some (PStr "admin")
    /\ message !! "updated_at" = None
    /\ dom message = list_to_set ["id"; "title"; "description"; "completed";
                                  "created_at"; "created_by"; "event"]
    /\ Todo.updated_at new_todo = Todo.created_at new_todo.
Proof.
  intros todo new_todo st'.
  apply (created_event_contents initial_state 1700000000000000 todo
           (PStr "admin") new_todo st').
  reflexivity.
Defined.

(** ** Invariants along request sequences *)

Lemma run_snoc rqs rq st : run (rqs ++ [rq]) st = step (run rqs st) rq.
Proof. unfold run. by rewrite foldl_app. Qed.

Lemma created_ids_snoc rqs rq st :
  created_ids st (rqs ++ [rq])
  = created_ids st rqs ++ option_list (created_id (run rqs st) rq).
Proof.
  revert st. induction rqs as [|r rqs IH]; intros st; simpl.
  - by rewrite app_nil_r.
  - by rewrite IH, app_assoc.
Qed.

Lemma deleted_ids_snoc rqs rq st :
  deleted_ids st (rqs ++ [rq])
  = deleted_ids st rqs ++ option_list (deleted_id (run rqs st) rq).
Proof.
  revert st. induction rqs as [|r rqs IH]; intros st; simpl.
  - by rewrite app_nil_r.
  - by rewrite IH, app_assoc.
Qed.

Lemma length_filter_ne (l : list Z) (k : Z) :
  NoDup l -> k ∈ l ->
  (length (filter (fun i => i ≠ k) l) + 1 = length l)%nat.
Proof.
  induction 1 as [|x l Hx Hnd IH]; [by intros ?%elem_of_nil|].
  rewrite filter_cons. intros [->|Hin]%elem_of_cons.
  - rewrite decide_False by (by intros ?). simpl.
    assert (Hsame : filter (fun i => i ≠ x) l = l).
    { clear IH Hnd. induction l as [|y l IHl]; [done|].
      apply not_elem_of_cons in Hx as [? ?].
      rewrite filter_cons, decide_True by done. f_equal. auto. }
    rewrite Hsame. lia.
  - rewrite decide_True by (intros ->; done). simpl.
    specialize (IH Hin). lia.
Qed.

Lemma tracked_initial : tracked initial_state [] [].
Proof.
  split; simpl.
  - by intros k t ?%elem_of_nil.
  - apply NoDup_nil_2.
  - intros i. split; [by intros ?%elem_of_nil | by intros [?%elem_of_nil _]].
  - by intros i ?%elem_of_nil.
  - apply NoDup_nil_2.
  - apply NoDup_nil_2.
  - by intros i ?%elem_of_nil.
  - done.
Qed.

Lemma tracked_unchanged st st' created deleted :
  todos_db st' = todos_db st ->
  todo_id_counter st <= todo_id_counter st' ->
  tracked st created deleted ->
  tracked st' (created ++ []) (deleted ++ []).
Proof.
  intros Hdb Hc [Hki Hnd Hkeys Hlt HC HD HDC Hlen].
  rewrite !app_nil_r. split; rewrite ?Hdb; try done.
  intros i Hi. specialize (Hlt i Hi). lia.
Qed.

Lemma tracked_create st st' created deleted new_todo :
  Todo.id new_todo = todo_id_counter st ->
  todos_db st' = IntDict.set (todo_id_counter st) new_todo (todos_db st) ->
  todo_id_counter st' = todo_id_counter st + 1 ->
  tracked st created deleted ->
  tracked st' (created ++ [todo_id_counter st]) (deleted ++ []).
Proof.
  intros Hid Hdb Hcnt [Hki Hnd Hkeys Hlt HC HD HDC Hlen].
  set (c := todo_id_counter st) in *.
  assert (HcC : c ∉ created) by (intros ?%Hlt; lia).
  assert (Hck : c ∉ IntDict.keys (todos_db st)) by (intros [? _]%Hkeys; done).
  rewrite app_nil_r. split; rewrite ?Hdb, ?Hcnt, ?keys_set_absent by done.
  - intros k t [[= -> ->]|Hin]%elem_of_set; [done | by apply Hki].
  - apply NoDup_app. split; [done|]. split; [|apply NoDup_singleton].
    intros i Hi ->%list_elem_of_singleton. done.
  - intros i. rewrite !elem_of_app, !list_elem_of_singleton, Hkeys.
    split.
    + intros [[? ?]| ->]; [by auto|].
      split; [by right|]. by intros ?%HDC.
    + intros [[?| ->] ?]; auto.
  - intros i [?%Hlt| ->%list_elem_of_singleton]%elem_of_app; lia.
  - apply NoDup_app. split; [done|]. split; [|apply NoDup_singleton].
    intros i Hi ->%list_elem_of_singleton. done.
  - done.
  - intros i ?%HDC. apply elem_of_app. auto.
  - rewrite !length_app. simpl. lia.
Qed.

Lemma tracked_update st st' created deleted k old new_todo :
  IntDict.get k (todos_db st) = Some old ->
  Todo.id new_todo = Todo.id old ->
  todos_db st' = IntDict.set k new_todo (todos_db st) ->
  todo_id_counter st' = todo_id_counter st ->
  tracked st created deleted ->
  tracked st' (created ++ []) (deleted ++ []).
Proof.
  intros Hget Hid Hdb Hcnt [Hki Hnd Hkeys Hlt HC HD HDC Hlen].
  assert (Hk : k ∈ IntDict.keys (todos_db st))
    by (apply get_is_Some; by exists old).
  rewrite !app_nil_r.
  split; rewrite ?Hdb, ?Hcnt, ?keys_set_present by done; try done.
  intros k' t [[= -> ->]|Hin]%elem_of_set; [|by apply Hki].
  rewrite Hid. by apply Hki, get_elem_of.
Qed.

Lemma tracked_delete st st' created deleted k :
  k ∈ IntDict.keys (todos_db st) ->
  todos_db st' = IntDict.remove k (todos_db st) ->
  todo_id_counter st' = todo_id_counter st ->
  tracked st created deleted ->
  tracked st' (created ++ []) (deleted ++ [k]).
Proof.
  intros Hk Hdb Hcnt [Hki Hnd Hkeys Hlt HC HD HDC Hlen].
  destruct (proj1 (Hkeys k) Hk) as [HkC HkD].
  rewrite app_nil_r. split; rewrite ?Hdb, ?Hcnt, ?keys_remove; try done.
  - intros k' t ?%elem_of_remove. by apply Hki.
  - by apply NoDup_filter.
  - intros i. rewrite list_elem_of_filter, elem_of_app, list_elem_of_singleton, Hkeys.
    tauto.
  - apply NoDup_app. split; [done|]. split; [|apply NoDup_singleton].
    intros i Hi ->%list_elem_of_singleton. done.
  - intros i [?%HDC| ->%list_elem_of_singleton]%elem_of_app; done.
  - rewrite length_app. simpl.
    pose proof (length_filter_ne _ k Hnd Hk). lia.
Qed.

Lemma step_tracked st created deleted rq :
  tracked st created deleted ->
  tracked (step st rq)
    (created ++ option_list (created_id st rq))
    (deleted ++ option_list (deleted_id st rq)).
Proof.
  intros Htr. destruct rq as [now todo u|u|i u|now i todo u|i u]; simpl.
  - unfold create_todo, Todo.init.
    destruct (_ && _); simpl.
    + eapply tracked_create;
        [ | simpl; reflexivity | simpl; reflexivity | exact Htr ]; reflexivity.
    + apply (tracked_unchanged st); simpl; [done | lia | done].
  - by apply (tracked_unchanged st).
  - unfold get_todo.
    destruct (IntDict.contains _ _); simpl;
      [destruct (IntDict.get _ _)|]; by apply (tracked_unchanged st).
  - unfold update_todo.
    destruct (IntDict.contains _ _); simpl;
      [destruct (IntDict.get _ _) eqn:Hget|]; simpl.
    + eapply tracked_update;
        [ exact Hget | | simpl; reflexivity | reflexivity | exact Htr ];
        reflexivity.
    + by apply (tracked_unchanged st).
    + by apply (tracked_unchanged st).
  - unfold delete_todo.
    destruct (IntDict.contains _ _) eqn:Hc; simpl;
      [destruct (IntDict.get _ _) eqn:Hget|]; simpl.
    + apply (tracked_delete st); [|done..].
      apply get_is_Some. eauto.
    + by apply (tracked_unchanged st).
    + by apply (tracked_unchanged st).
Qed.

Lemma run_tracked rqs :
  tracked (run rqs initial_state)
    (created_ids initial_state rqs) (deleted_ids initial_state rqs).
Proof.
  induction rqs as [|rq rqs IH] using rev_ind.
  - apply tracked_initial.
  - rewrite run_snoc, created_ids_snoc, deleted_ids_snoc.
    by apply step_tracked.
Qed.

Lemma ids_of_values (d : list (Z * Todo.t)) :
  (forall k t, (k, t) ∈ d -> k = Todo.id t) ->
  Todo.id <$> IntDict.values d = IntDict.keys d.
Proof.
  unfold IntDict.values, IntDict.keys.
  induction d as [|[k t] d IH]; intros Hki; simpl; [done|].
  f_equal.
  - symmetry. apply Hki. left.
  - apply IH. intros k' t' Hin. apply Hki. by right.
Qed.

(** C5.  In every state reached from the initial state (empty store,
    counter 1) by a sequence of requests -- Create, Update, Delete, and
    the two reads -- every key of the store equals the id of the record it
    maps to, and the counter is strictly greater than every id in the
    store. *)
Theorem store_invariant (rqs : list request) :
  initial_state = {| todos_db := []; todo_id_counter := 1; kafka_outbox := [] |}
  /\ forall k t,
       (k, t) ∈ todos_db (run rqs initial_state) ->
       k = Todo.id t /\ Todo.id t < todo_id_counter (run rqs initial_state).
Proof.
  split; [done|]. intros k t Hin.
  destruct (run_tracked rqs) as [Hki _ Hkeys Hlt _ _ _ _].
  pose proof (Hki k t Hin) as <-. split; [done|].
  apply Hlt, Hkeys. unfold IntDict.keys.
  apply list_elem_of_fmap. by exists (k, t).
Qed.

(** C7.  Starting from the empty store, after any sequence of requests of
    which N are successful creates and M are successful deletes, M is at
    most N, every delete removed a distinct id that had been created, and
    List returns exactly N - M records, without repetition, whose ids are
    the created ids that were not deleted. *)
Theorem list_after_creates_and_deletes (rqs : list request) (reader : pyval) :
  let st := run rqs initial_state in
  let created := created_ids initial_state rqs in
  let deleted := deleted_ids initial_state rqs in
  exists todos,
    get_todos st reader = (Ok todos, st)
    /\ (length deleted <= length created)%nat
    /\ length todos = (length created - length deleted)%nat
    /\ NoDup (Todo.id <$> todos)
    /\ (forall i, i ∈ (Todo.id <$> todos) <-> i ∈ created /\ i ∉ deleted)
    /\ NoDup created
    /\ NoDup deleted
    /\ (forall i, i ∈ deleted -> i ∈ created).
Proof.
  intros st created deleted.
  destruct (run_tracked rqs) as [Hki Hnd Hkeys Hlt HC HD HDC Hlen].
  fold st created deleted in Hki, Hnd, Hkeys, Hlt, HC, HD, HDC, Hlen.
  exists (IntDict.values (todos_db st)). split; [done|].
  rewrite (ids_of_values _ Hki).
  assert (Hl : length (IntDict.values (todos_db st))
               = length (IntDict.keys (todos_db st))).
  { unfold IntDict.values, IntDict.keys. by rewrite !length_fmap. }
  rewrite Hl. repeat split; try done; try lia; by apply Hkeys.
Qed.

(** ** Timestamps under a clock that does not go back *)

Lemma step_stamps now st rq :
  (forall t, clock_reading rq = Some t -> t <= now) ->
  stamps_at_most now st -> stamps_at_most now (step st rq).
Proof.
  unfold stamps_at_most.
  intros Hclock Hst. destruct rq as [t0 todo u|u|i u|t0 i todo u|i u]; simpl.
  - specialize (Hclock t0 eq_refl).
    unfold create_todo, Todo.init. destruct (_ && _); simpl; [|done].
    intros k t [[= -> ->]|Hin]%elem_of_set; simpl; [lia | eauto].
  - done.
  - unfold get_todo.
    destruct (IntDict.contains _ _); simpl; [destruct (IntDict.get _ _) as [old|]|]; done.
  - specialize (Hclock t0 eq_refl).
    unfold update_todo.
    destruct (IntDict.contains _ _); simpl;
      [destruct (IntDict.get _ _) as [old|]|]; simpl; try done.
    intros k t [[= -> ->]|Hin]%elem_of_set; simpl; [lia | eauto].
  - unfold delete_todo.
    destruct (IntDict.contains _ _); simpl;
      [destruct (IntDict.get _ _) as [old|]|]; simpl; try done.
    intros k t ?%elem_of_remove. eauto.
Qed.

(** When no clock reading taken so far exceeds [now], no stored
    [updated_at] does: under a clock that does not go back, the current
    time is at least every [updated_at] in a state the service reaches. *)
Lemma run_stamps now rqs :
  Forall (fun rq => forall t, clock_reading rq = Some t -> t <= now) rqs ->
  stamps_at_most now (run rqs initial_state).
Proof.
  induction rqs as [|rq rqs IH] using rev_ind; intros Hall.
  - by intros k t ?%elem_of_nil.
  - apply Forall_app in Hall as [Hrqs Hrq].
    rewrite run_snoc. apply step_stamps; [|by apply IH].
    by inversion Hrq.
Qed.

(** * Further properties of the handlers *)

(** ** The shape of the store after one request *)

Lemma filter_all {A} (P : A -> Prop) `{forall x, Decision (P x)} (l : list A) :
  (forall x, x ∈ l -> P x) -> filter P l = l.
Proof.
  induction l as [|x l IH]; intros HP; [done|].
  rewrite filter_cons_True by (apply HP; left).
  f_equal. apply IH. intros y ?. apply HP. by right.
Qed.

Lemma created_id_counter st rq c :
  created_id st rq = Some c ->
  c = todo_id_counter st /\ deleted_id st rq = None.
Proof.
  destruct rq as [now todo u|u|i u|now i todo u|i u]; simpl; try done.
  unfold create_todo, Todo.init. destruct (_ && _); simpl; [|done].
  by intros [= <-].
Qed.

Lemma deleted_id_present st rq k :
  deleted_id st rq = Some k ->
  k ∈ IntDict.keys (todos_db st) /\ created_id st rq = None.
Proof.
  destruct rq as [now todo u|u|i u|now i todo u|i u]; simpl; try done.
  unfold delete_todo.
  destruct (IntDict.contains i (todos_db st)) eqn:Hc; simpl; [|done].
  destruct (IntDict.get i (todos_db st)); simpl; [|done].
  intros [= <-]. split; [|done]. by apply contains_elem_of.
Qed.

(** The keys after a request: the deleted key gone, the created key
    last, the others in their order. *)
Lemma step_keys st rq :
  todo_id_counter st ∉ IntDict.keys (todos_db st) ->
  IntDict.keys (todos_db (step st rq))
  = filter (fun i => Some i ≠ deleted_id st rq) (IntDict.keys (todos_db st))
    ++ option_list (created_id st rq).
Proof.
  intros Hfresh.
  assert (Hid : forall o : option Z, o = None ->
            filter (fun i => Some i ≠ o) (IntDict.keys (todos_db st))
            = IntDict.keys (todos_db st)).
  { intros o ->. by apply filter_all. }
  destruct rq as [now todo u|u|i u|now i todo u|i u]; simpl.
  - rewrite Hid by done. unfold create_todo, Todo.init.
    destruct (_ && _); simpl; [|by rewrite app_nil_r].
    by rewrite keys_set_absent.
  - rewrite Hid by done. by rewrite app_nil_r.
  - rewrite Hid by done. rewrite app_nil_r. unfold get_todo.
    destruct (IntDict.contains _ _); simpl;
      [destruct (IntDict.get _ _)|]; done.
  - rewrite Hid by done. rewrite app_nil_r. unfold update_todo.
    destruct (IntDict.contains _ _) eqn:Hc; simpl;
      [destruct (IntDict.get _ _)|]; simpl; try done.
    apply keys_set_present. by apply contains_elem_of.
  - rewrite app_nil_r. unfold delete_todo.
    destruct (IntDict.contains _ _) eqn:Hc; simpl;
      [destruct (IntDict.get _ _) eqn:Hget|]; simpl.
    + rewrite keys_remove. apply list_filter_iff. intros j.
      split; [intros ? [= ->]; done | intros Hne ->; by apply Hne].
    + by rewrite filter_all.
    + by rewrite filter_all.
Qed.

Lemma tracked_counter_fresh st created deleted :
  tracked st created deleted ->
  todo_id_counter st ∉ IntDict.keys (todos_db st).
Proof.
  intros [_ _ Hkeys Hlt _ _ _ _] [Hc _]%Hkeys. apply Hlt in Hc. lia.
Qed.

Lemma StronglySorted_filter {A} (R : relation A) (P : A -> Prop)
    `{forall x, Decision (P x)} (l : list A) :
  StronglySorted R l -> StronglySorted R (filter P l).
Proof.
  induction 1 as [|x l Hl IH Hx]; [constructor|].
  rewrite filter_cons. destruct (decide (P x)); [|done].
  constructor; [done|].
  apply Forall_forall. intros y [_ Hy]%list_elem_of_filter.
  by eapply Forall_forall in Hx.
Qed.

Lemma run_keys_sorted rqs :
  StronglySorted Z.lt (IntDict.keys (todos_db (run rqs initial_state))).
Proof.
  induction rqs as [|rq rqs IH] using rev_ind; [constructor|].
  pose proof (run_tracked rqs) as Htr.
  rewrite run_snoc, step_keys by (by eapply tracked_counter_fresh).
  apply StronglySorted_app_2.
  - intros k c [_ Hk]%list_elem_of_filter Hc.
    destruct (created_id _ rq) as [c'|] eqn:Hcr; simpl in Hc;
      [|by apply elem_of_nil in Hc].
    apply list_elem_of_singleton in Hc as ->.
    apply created_id_counter in Hcr as [-> _].
    destruct Htr as [_ _ Hkeys Hlt _ _ _ _].
    apply Hlt. by apply Hkeys.
  - by apply StronglySorted_filter.
  - destruct (created_id _ rq); simpl; repeat constructor.
Qed.

Lemma run_keys_order rqs :
  IntDict.keys (todos_db (run rqs initial_state))
  = filter (fun i => i ∉ deleted_ids initial_state rqs)
      (created_ids initial_state rqs).
Proof.
  induction rqs as [|rq rqs IH] using rev_ind; [done|].
  pose proof (run_tracked rqs) as Htr.
  rewrite run_snoc, step_keys by (by eapply tracked_counter_fresh).
  rewrite created_ids_snoc, deleted_ids_snoc, IH.
  destruct Htr as [_ _ Hkeys Hlt _ _ HDC _].
  set (st := run rqs initial_state) in *.
  set (C := created_ids initial_state rqs) in *.
  set (D := deleted_ids initial_state rqs) in *.
  destruct (created_id st rq) as [c|] eqn:Hcr;
    [apply created_id_counter in Hcr as [-> ->]
    |destruct (deleted_id st rq) as [k|] eqn:Hdel]; simpl.
  - rewrite !app_nil_r, filter_app.
    rewrite (filter_all (fun i => Some i ≠ None)) by done.
    f_equal. rewrite filter_cons_True; [done|].
    intros ?%HDC%Hlt. lia.
  - rewrite !app_nil_r, list_filter_filter. apply list_filter_iff.
    intros j. rewrite elem_of_app, list_elem_of_singleton.
    split; [intros [Hne ?] [?| ->]; [done | by apply Hne]
           |intros Hn; split; [intros [= ->] |]; tauto].
  - rewrite !app_nil_r. by apply filter_all.
Qed.

(** X1.  In every state reached from the initial one, List returns the
    records in the order of their creation: their ids are strictly
    increasing, and they are the created ids, in order, with the deleted
    ones left out. *)
Theorem list_in_creation_order (rqs : list request) (reader : pyval) :
  exists todos,
    (get_todos (run rqs initial_state) reader).1 = Ok todos
    /\ StronglySorted Z.lt (Todo.id <$> todos)
    /\ Todo.id <$> todos
       = filter (fun i => i ∉ deleted_ids initial_state rqs)
           (created_ids initial_state rqs).
Proof.
  eexists. split; [done|].
  destruct (run_tracked rqs) as [Hki _ _ _ _ _ _ _].
  rewrite (ids_of_values _ Hki).
  split; [apply run_keys_sorted | apply run_keys_order].
Qed.

(** ** The id counter *)

Lemma step_counter st rq :
  todo_id_counter (step st rq)
  = todo_id_counter st + (if is_create rq then 1 else 0).
Proof.
  destruct rq as [now todo u|u|i u|now i todo u|i u]; simpl.
  - unfold create_todo. destruct (Todo.init _ _ _ _ _ _); simpl; lia.
  - lia.
  - unfold get_todo. destruct (IntDict.contains _ _); simpl;
      [destruct (IntDict.get _ _)|]; simpl; lia.
  - unfold update_todo. destruct (IntDict.contains _ _); simpl;
      [destruct (IntDict.get _ _)|]; simpl; lia.
  - unfold delete_todo. destruct (IntDict.contains _ _); simpl;
      [destruct (IntDict.get _ _)|]; simpl; lia.
Qed.

Lemma run_counter rqs st :
  todo_id_counter (run rqs st)
  = todo_id_counter st + Z.of_nat (length (filter (fun rq => is_create rq = true) rqs)).
Proof.
  revert st. induction rqs as [|rq rqs IH]; intros st; simpl; [lia|].
  change (foldl step (step st rq) rqs) with (run rqs (step st rq)).
  rewrite IH, step_counter, filter_cons.
  destruct (is_create rq); simpl; lia.
Qed.

Lemma created_ids_sequential rqs st :
  Forall (fun rq => create_input_valid rq = true) rqs ->
  created_ids st rqs
  = seqZ (todo_id_counter st)
      (Z.of_nat (length (filter (fun rq => is_create rq = true) rqs))).
Proof.
  revert st. induction rqs as [|rq rqs IH]; intros st Hall; [done|].
  apply Forall_cons in Hall as [Hrq Hall]. simpl.
  rewrite (IH _ Hall), step_counter, filter_cons.
  destruct rq as [now todo u|u|i u|now i todo u|i u]; simpl;
    rewrite ?Z.add_0_r; try done.
  simpl in Hrq. unfold create_todo. rewrite Todo_init_valid by done. simpl.
  rewrite (seqZ_cons _ (Z.of_nat (S _))) by lia.
  f_equal. f_equal; lia.
Qed.

(** X2.  The counter is one more than the number of create requests
    handled so far, whether they succeeded or not, and no other request
    moves it.  When every create request carried a valid body, the ids
    handed out are 1, 2, ..., N in this order. *)
Theorem ids_are_sequential (rqs : list request) :
  let creates := length (filter (fun rq => is_create rq = true) rqs) in
  todo_id_counter (run rqs initial_state) = 1 + Z.of_nat creates
  /\ (Forall (fun rq => create_input_valid rq = true) rqs ->
      created_ids initial_state rqs = seqZ 1 (Z.of_nat creates)).
Proof.
  split.
  - by rewrite run_counter.
  - intros Hall. by rewrite created_ids_sequential.
Qed.

Lemma ids_are_sequential_witness :
  let rqs := [Create 10 {| TodoCreate.title := "a"; TodoCreate.description := None;
                           TodoCreate.completed := false |} (PStr "admin");
              Delete 1 (PStr "user");
              Create 20 {| TodoCreate.title := String.concat "" (replicate 150 "é");
                           TodoCreate.description := None;
                           TodoCreate.completed := true |} (PStr "demo")] in
  created_ids initial_state rqs
  = seqZ 1 (Z.of_nat (length (filter (fun rq => is_create rq = true) rqs))).
Proof.
  intros rqs.
  apply (proj2 (ids_are_sequential rqs)).
  repeat constructor.
Defined.

(** ** What List shows after a mutation *)

Lemma values_set_absent (d : list (Z * Todo.t)) k v :
  k ∉ IntDict.keys d ->
  IntDict.values (IntDict.set k v d) = IntDict.values d ++ [v].
Proof.
  unfold IntDict.keys, IntDict.values.
  induction d as [|[k0 v0] d IH]; simpl; [done|].
  intros [? ?]%not_elem_of_cons.
  rewrite bool_decide_eq_false_2 by done. simpl. f_equal. auto.
Qed.

Lemma values_other_ids (d : list (Z * Todo.t)) k v :
  (forall k' t, (k', t) ∈ d -> k' = Todo.id t) ->
  k ∉ IntDict.keys d ->
  (fun t => if bool_decide (Todo.id t = k) then v else t) <$> IntDict.values d
  = IntDict.values d.
Proof.
  unfold IntDict.keys, IntDict.values.
  induction d as [|[k1 v1] d IH]; intros Hki Hk; simpl; [done|].
  simpl in Hk. apply not_elem_of_cons in Hk as [Hne Hk].
  assert (k1 = Todo.id v1) by (apply Hki; left).
  rewrite bool_decide_eq_false_2 by congruence. f_equal.
  apply IH; [|done]. intros k' t ?. apply Hki. by right.
Qed.

Lemma values_set_present (d : list (Z * Todo.t)) k v :
  NoDup (IntDict.keys d) ->
  (forall k' t, (k', t) ∈ d -> k' = Todo.id t) ->
  k ∈ IntDict.keys d ->
  IntDict.values (IntDict.set k v d)
  = (fun t => if bool_decide (Todo.id t = k) then v else t) <$> IntDict.values d.
Proof.
  induction d as [|[k0 v0] d IH]; simpl; [by intros _ _ ?%elem_of_nil|].
  intros [Hk0 Hnd]%NoDup_cons Hki Hin.
  assert (Hv0 : k0 = Todo.id v0) by (apply Hki; left).
  assert (Hki' : forall k' t, (k', t) ∈ d -> k' = Todo.id t)
    by (intros k' t ?; apply Hki; by right).
  case_bool_decide as Hk.
  - subst k. rewrite bool_decide_eq_true_2 by done.
    change (list_fmap Todo.t Todo.t ?f ?l) with (f <$> l).
    rewrite values_other_ids by done. done.
  - rewrite bool_decide_eq_false_2 by congruence.
    change (IntDict.values ((k0, v0) :: IntDict.set k v d))
      with (v0 :: IntDict.values (IntDict.set k v d)).
    f_equal. apply IH; [done..|].
    apply elem_of_cons in Hin as [?|?]; [congruence | done].
Qed.

Lemma values_remove (d : list (Z * Todo.t)) k :
  (forall k' t, (k', t) ∈ d -> k' = Todo.id t) ->
  IntDict.values (IntDict.remove k d)
  = filter (fun t => Todo.id t ≠ k) (IntDict.values d).
Proof.
  unfold IntDict.remove, IntDict.values.
  induction d as [|[k0 v0] d IH]; intros Hki; simpl; [done|].
  assert (Hv0 : k0 = Todo.id v0) by (apply Hki; left).
  assert (IH' := IH (fun k' t H => Hki k' t (list_elem_of_further _ _ _ H))).
  rewrite !filter_cons. simpl. rewrite <- Hv0.
  destruct (decide (k0 ≠ k)); simpl; [f_equal|]; exact IH'.
Qed.

(** X3.  In a state reached from the initial one, a Create with a valid
    body puts the new record at the end of what List returns and leaves
    the records before it as they were. *)
Theorem create_appends_to_list (rqs : list request) (now : Z)
    (todo : TodoCreate.t) (creator reader : pyval) :
  TodoCreate.valid todo = true ->
  let st := run rqs initial_state in
  exists new_todo st' before,
    create_todo st now todo creator = (Ok new_todo, st')
    /\ (get_todos st reader).1 = Ok before
    /\ (get_todos st' reader).1 = Ok (before ++ [new_todo]).
Proof.
  intros Hv st. unfold create_todo. rewrite Todo_init_valid by done.
  eexists _, _, _. split; [done|]. split; [done|]. simpl. f_equal.
  apply values_set_absent.
  by eapply tracked_counter_fresh, run_tracked.
Qed.

Lemma create_appends_to_list_witness :
  let rqs := [Create 10 {| TodoCreate.title := "a"; TodoCreate.description := None;
                           TodoCreate.completed := false |} (PStr "admin");
              Create 20 {| TodoCreate.title := "b"; TodoCreate.description := None;
                           TodoCreate.completed := false |} (PStr "user");
              Delete 1 (PStr "demo")] in
  exists new_todo st' before,
    create_todo (run rqs initial_state) 30
      {| TodoCreate.title := "thé"; TodoCreate.description := Some "à la menthe";
         TodoCreate.completed := false |} (PStr "admin")
    = (Ok new_todo, st')
    /\ (get_todos (run rqs initial_state) (PStr "user")).1 = Ok before
    /\ (get_todos st' (PStr "user")).1 = Ok (before ++ [new_todo]).
Proof.
  intros rqs.
  apply (create_appends_to_list rqs 30
           {| TodoCreate.title := "thé"; TodoCreate.description := Some "à la menthe";
              TodoCreate.completed := false |} (PStr "admin") (PStr "user")).
  reflexivity.
Defined.

(** X4.  In a state reached from the initial one, an Update of a present
    id leaves what List returns as it was, record for record and in the
    same order, except that the updated record stands in the place of the
    old one. *)
Theorem update_replaces_in_list (rqs : list request) (now todo_id : Z)
    (todo_update : TodoCreate.t) (current_user reader : pyval) (old : Todo.t) :
  let st := run rqs initial_state in
  IntDict.get todo_id (todos_db st) = Some old ->
  exists updated st' before,
    update_todo st now todo_id todo_update current_user = (Ok updated, st')
    /\ (get_todos st reader).1 = Ok before
    /\ (get_todos st' reader).1
       = Ok ((fun t => if bool_decide (Todo.id t = todo_id) then updated else t)
             <$> before).
Proof.
  intros st Hget. unfold update_todo.
  rewrite (get_Some_contains _ _ _ Hget), Hget. simpl.
  eexists _, _, _. split; [done|]. split; [done|]. simpl. f_equal.
  destruct (run_tracked rqs) as [Hki Hnd _ _ _ _ _ _].
  apply values_set_present; [done..|].
  apply get_is_Some. by exists old.
Qed.

Lemma update_replaces_in_list_witness :
  let rqs := [Create 10 {| TodoCreate.title := "a"; TodoCreate.description := None;
                           TodoCreate.completed := false |} (PStr "admin")] in
  exists updated st' before,
    update_todo (run rqs initial_state) 20 1
      {| TodoCreate.title := "b"; TodoCreate.description := None;
         TodoCreate.completed := true |} (PStr "user")
    = (Ok updated, st')
    /\ (get_todos (run rqs initial_state) (PStr "demo")).1 = Ok before
    /\ (get_todos st' (PStr "demo")).1
       = Ok ((fun t => if bool_decide (Todo.id t = 1) then updated else t)
             <$> before).
Proof.
  intros rqs.
  apply (update_replaces_in_list rqs 20 1
           {| TodoCreate.title := "b"; TodoCreate.description := None;
              TodoCreate.completed := true |} (PStr "user") (PStr "demo")
           {| Todo.id := 1; Todo.title := "a"; Todo.description := None;
              Todo.completed := false; Todo.created_at := 10;
              Todo.updated_at := 10 |}).
  reflexivity.
Defined.

(** X5.  In a state reached from the initial one, a Delete of a present
    id succeeds, leaves the counter alone, and leaves what List returns
    as it was with the one record of that id taken out: the other records
    are unchanged and keep their order. *)
Theorem delete_removes_from_list (rqs : list request) (todo_id : Z)
    (current_user reader : pyval) :
  let st := run rqs initial_state in
  IntDict.contains todo_id (todos_db st) = true ->
  exists st' before,
    delete_todo st todo_id current_user = (Ok tt, st')
    /\ todo_id_counter st' = todo_id_counter st
    /\ (get_todos st reader).1 = Ok before
    /\ (get_todos st' reader).1
       = Ok (filter (fun t => Todo.id t ≠ todo_id) before)
    /\ length (filter (fun t => Todo.id t ≠ todo_id) before)
       = (length before - 1)%nat.
Proof.
  intros st Hc. unfold delete_todo. rewrite Hc.
  destruct (contains_get_Some _ _ Hc) as [old Hget]. rewrite Hget. simpl.
  destruct (run_tracked rqs) as [Hki Hnd _ _ _ _ _ _].
  eexists _, _. split; [done|]. split; [done|]. split; [done|].
  rewrite <- values_remove by done. split; [done|].
  unfold IntDict.values. rewrite !length_fmap.
  rewrite <- (length_fmap fst (IntDict.remove _ _)), <- (length_fmap fst (todos_db _)).
  change (length (IntDict.keys (IntDict.remove todo_id (todos_db st)))
          = (length (IntDict.keys (todos_db st)) - 1)%nat).
  rewrite keys_remove.
  pose proof (length_filter_ne _ todo_id Hnd (proj1 (contains_elem_of _ _) Hc)).
  fold st in H. lia.
Qed.

Lemma delete_removes_from_list_witness :
  let rqs := [Create 10 {| TodoCreate.title := "a"; TodoCreate.description := None;
                           TodoCreate.completed := false |} (PStr "admin")] in
  exists st' before,
    delete_todo (run rqs initial_state) 1 (PStr "user") = (Ok tt, st')
    /\ todo_id_counter st' = todo_id_counter (run rqs initial_state)
    /\ (get_todos (run rqs initial_state) (PStr "demo")).1 = Ok before
    /\ (get_todos st' (PStr "demo")).1
       = Ok (filter (fun t => Todo.id t ≠ 1) before)
    /\ length (filter (fun t => Todo.id t ≠ 1) before)
       = (length before - 1)%nat.
Proof.
  intros rqs.
  apply (delete_removes_from_list rqs 1 (PStr "user") (PStr "demo")).
  reflexivity.
Defined.

(** ** The events of update and delete *)

Ltac lookup_literal :=
  repeat (rewrite lookup_insert_ne by done);
  first [ apply lookup_insert_eq | apply lookup_singleton_eq
        | apply lookup_singleton_ne; done ].

(** X6.  A successful Update hands exactly one message to the publisher,
    with seven entries: the record's [id], the new [title], [description]
    and [completed], the new [updated_at] in ISO format, the subject as
    [updated_by], and [event] = 'todo_updated'.  The record's
    [created_at] is not in the message. *)
Theorem updated_event_contents (st : State) (now todo_id : Z)
    (todo_update : TodoCreate.t) (current_user : pyval) updated st' :
  update_todo st now todo_id todo_update current_user = (Ok updated, st') ->
  exists message,
    kafka_outbox st' = kafka_outbox st ++ [message]
    /\ message !! "event" = Some (PStr "todo_updated")
    /\ message !! "id" = Some (PInt (Todo.id updated))
    /\ message !! "title" = Some (PStr (TodoCreate.title todo_update))
    /\ message !! "description"
       = Some (of_optional_str (TodoCreate.description todo_update))
    /\ message !! "completed" = Some (PBool (TodoCreate.completed todo_update))
    /\ message !! "updated_at" = Some (PIsoStr now)
    /\ message !! "updated_by" = Some current_user
    /\ message !! "created_at" = None
    /\ dom message = list_to_set ["id"; "title"; "description"; "completed";
                                  "updated_at"; "updated_by"; "event"].
Proof.
  unfold update_todo.
  destruct (IntDict.contains _ _); simpl; [|done].
  destruct (IntDict.get _ _) as [old|]; [|done].
  intros [= <- <-]. simpl.
  eexists. split; [done|]. unfold updated_message. simpl.
  repeat split; lookup_literal.
Qed.

Lemma updated_event_contents_witness :
  let old := {| Todo.id := 1; Todo.title := "a"; Todo.description := None;
                Todo.completed := false; Todo.created_at := 10;
                Todo.updated_at := 10 |} in
  let upd := {| TodoCreate.title := "b"; TodoCreate.description := Some "c";
                TodoCreate.completed := true |} in
  let st := {| todos_db := [(1, old)]; todo_id_counter := 2;
               kafka_outbox := [] |} in
  exists message : pydict,
    kafka_outbox (update_todo st 20 1 upd (PStr "user")).2
    = kafka_outbox st ++ [message]
    /\ message !! "event" = Some (PStr "todo_updated")
    /\ message !! "id"
       = Some (PInt (Todo.id {| Todo.id := 1; Todo.title := "b";
                                Todo.description := Some "c";
                                Todo.completed := true; Todo.created_at := 10;
                                Todo.updated_at := 20 |}))
    /\ message !! "title" = Some (PStr (TodoCreate.title upd))
    /\ message !! "description"
       = Some (of_optional_str (TodoCreate.description upd))
    /\ message !! "completed" = Some (PBool (TodoCreate.completed upd))
    /\ message !! "updated_at" = Some (PIsoStr 20)
    /\ message !! "updated_by" = Some (PStr "user")
    /\ message !! "created_at" = None
    /\ dom message = list_to_set ["id"; "title"; "description"; "completed";
                                  "updated_at"; "updated_by"; "event"].
Proof.
  intros old upd st.
  apply (updated_event_contents st 20 1 upd (PStr "user")
           {| Todo.id := 1; Todo.title := "b"; Todo.description := Some "c";
              Todo.completed := true; Todo.created_at := 10;
              Todo.updated_at := 20 |}
           (update_todo st 20 1 upd (PStr "user")).2).
  reflexivity.
Defined.

(** X7.  A successful Delete hands exactly one message to the publisher,
    with three entries and no field of the record but its id: the [id] of
    the record that was stored under the deleted key, the subject as
    [deleted_by], and [event] = 'todo_deleted'. *)
Theorem deleted_event_contents (st : State) (todo_id : Z)
    (current_user : pyval) st' :
  delete_todo st todo_id current_user = (Ok tt, st') ->
  exists message deleted_todo,
    IntDict.get todo_id (todos_db st) = Some deleted_todo
    /\ kafka_outbox st' = kafka_outbox st ++ [message]
    /\ message !! "event" = Some (PStr "todo_deleted")
    /\ message !! "id" = Some (PInt (Todo.id deleted_todo))
    /\ message !! "deleted_by" = Some current_user
    /\ dom message = list_to_set ["id"; "deleted_by"; "event"].
Proof.
  unfold delete_todo.
  destruct (IntDict.contains _ _); simpl; [|done].
  destruct (IntDict.get _ _) as [old|]; [|done].
  intros [= <-]. simpl.
  eexists _, _. split; [done|]. split; [done|]. unfold deleted_message.
  repeat split; lookup_literal.
Qed.

Lemma deleted_event_contents_witness :
  let old := {| Todo.id := 1; Todo.title := "a"; Todo.description := None;
                Todo.completed := false; Todo.created_at := 10;
                Todo.updated_at := 10 |} in
  let st := {| todos_db := [(1, old)]; todo_id_counter := 2;
               kafka_outbox := [] |} in
  exists (message : pydict) deleted_todo,
    IntDict.get 1 (todos_db st) = Some deleted_todo
    /\ kafka_outbox (delete_todo st 1 (PStr "user")).2
       = kafka_outbox st ++ [message]
    /\ message !! "event" = Some (PStr "todo_deleted")
    /\ message !! "id" = Some (PInt (Todo.id deleted_todo))
    /\ message !! "deleted_by" = Some (PStr "user")
    /\ dom message = list_to_set ["id"; "deleted_by"; "event"].
Proof.
  intros old st.
  apply (deleted_event_contents st 1 (PStr "user")
           (delete_todo st 1 (PStr "user")).2).
  reflexivity.
Defined.

(** ** The outbox along a request sequence *)

Lemma step_outbox st rq :
  exists new,
    kafka_outbox (step st rq) = kafka_outbox st ++ new
    /\ length new = if mutation_succeeds st rq then 1%nat else 0%nat.
Proof.
  destruct rq as [now todo u|u|i u|now i todo u|i u]; simpl.
  - unfold create_todo. destruct (Todo.init _ _ _ _ _ _); simpl.
    + by eexists [_].
    + exists []. by rewrite app_nil_r.
  - exists []. by rewrite app_nil_r.
  - exists []. rewrite app_nil_r. unfold get_todo.
    destruct (IntDict.contains _ _); simpl;
      [destruct (IntDict.get _ _)|]; done.
  - unfold update_todo.
    destruct (IntDict.contains _ _); simpl;
      [destruct (IntDict.get _ _)|]; simpl;
      first [by eexists [_] | exists []; by rewrite app_nil_r].
  - unfold delete_todo.
    destruct (IntDict.contains _ _); simpl;
      [destruct (IntDict.get _ _)|]; simpl;
      first [by eexists [_] | exists []; by rewrite app_nil_r].
Qed.

(** X8.  The outbox only grows, at its end, and by exactly one message
    for each create, update or delete that succeeds: reads and failed
    requests publish nothing, and nothing published is ever dropped or
    reordered. *)
Theorem outbox_counts_mutations (rqs : list request) (st : State) :
  exists new,
    kafka_outbox (run rqs st) = kafka_outbox st ++ new
    /\ length new = successful_mutations st rqs.
Proof.
  revert st. induction rqs as [|rq rqs IH]; intros st; simpl.
  - exists []. by rewrite app_nil_r.
  - change (foldl step (step st rq) rqs) with (run rqs (step st rq)).
    destruct (IH (step st rq)) as (new2 & -> & <-).
    destruct (step_outbox st rq) as (new1 & -> & <-).
    exists (new1 ++ new2). by rewrite app_assoc, length_app.
Qed.

(** ** Reads *)

Lemma step_read st rq : is_read rq = true -> step st rq = st.
Proof.
  destruct rq as [now todo u|u|i u|now i todo u|i u]; simpl; try done.
  intros _. unfold get_todo.
  destruct (IntDict.contains _ _); simpl; [destruct (IntDict.get _ _)|]; done.
Qed.

(** X9.  List and Get leave the whole state as it is, so the reads in a
    request sequence can be left out without any effect on the state it
    ends in: dictionary, counter and outbox are the same. *)
Theorem reads_are_transparent (rqs : list request) (st : State) :
  run (filter (fun rq => is_read rq = false) rqs) st = run rqs st.
Proof.
  revert st. induction rqs as [|rq rqs IH]; intros st; [done|].
  rewrite filter_cons. destruct (is_read rq) eqn:Hr.
  - rewrite decide_False by done. simpl.
    rewrite (step_read _ _ Hr). apply IH.
  - rewrite decide_True by done. simpl. apply IH.
Qed.

(** ** The messages are fit for the producer *)

Lemma publishable_mono c c' message :
  c <= c' -> publishable c message -> publishable c' message.
Proof.
  intros Hle (Hj & (i & Hk & Hi) & He). split; [done|]. split; [|done].
  exists i. split; [done | lia].
Qed.

Lemma is_str_serializable v : is_str v = true -> json_serializable v = true.
Proof. by destruct v. Qed.

Lemma of_optional_str_serializable o :
  json_serializable (of_optional_str o) = true.
Proof. by destruct o. Qed.

Ltac message_serializable :=
  apply bool_decide_eq_true_2;
  repeat (apply map_Forall_insert_2;
          [first [done | apply of_optional_str_serializable
                 | by apply is_str_serializable]|]);
  first [apply map_Forall_empty | by apply map_Forall_singleton].

Lemma created_message_publishable c t u :
  is_str u = true -> 1 <= Todo.id t < c ->
  publishable c (created_message t u).
Proof.
  intros Hu Hid. unfold publishable, json_dumps_ok, message_key, created_message.
  split; [message_serializable|]. split.
  - exists (Todo.id t). by rewrite lookup_insert_eq.
  - exists "todo_created". split; [lookup_literal | by left].
Qed.

Lemma updated_message_publishable c t u :
  is_str u = true -> 1 <= Todo.id t < c ->
  publishable c (updated_message t u).
Proof.
  intros Hu Hid. unfold publishable, json_dumps_ok, message_key, updated_message.
  split; [message_serializable|]. split.
  - exists (Todo.id t). by rewrite lookup_insert_eq.
  - exists "todo_updated". split; [lookup_literal | right; by left].
Qed.

Lemma deleted_message_publishable c t u :
  is_str u = true -> 1 <= Todo.id t < c ->
  publishable c (deleted_message t u).
Proof.
  intros Hu Hid. unfold publishable, json_dumps_ok, message_key, deleted_message.
  split; [message_serializable|]. split.
  - exists (Todo.id t). by rewrite lookup_insert_eq.
  - exists "todo_deleted". split; [lookup_literal | right; right; by left].
Qed.

Lemma outbox_invariant_initial : outbox_invariant initial_state.
Proof.
  split; [done|]. split; [by intros k t ?%elem_of_nil | constructor].
Qed.

Lemma step_outbox_invariant st rq :
  is_str (current_user_of rq) = true ->
  outbox_invariant st -> outbox_invariant (step st rq).
Proof.
  unfold outbox_invariant. intros Hu (Hc & Hdb & Hout).
  destruct rq as [now todo u|u|i u|now i todo u|i u]; simpl in *.
  - unfold create_todo, Todo.init. destruct (_ && _); simpl.
    + split; [lia|]. split.
      * intros k t [[= -> ->]|Hin]%elem_of_set; simpl; [lia|].
        destruct (Hdb k t Hin). lia.
      * apply Forall_app. split.
        -- eapply Forall_impl; [done|]. intros m. apply publishable_mono. lia.
        -- apply Forall_singleton.
           apply created_message_publishable; [done | simpl; lia].
    + split; [lia|]. split.
      * intros k t Hin. destruct (Hdb k t Hin). lia.
      * eapply Forall_impl; [done|]. intros m. apply publishable_mono. lia.
  - done.
  - unfold get_todo.
    destruct (IntDict.contains _ _); simpl; [destruct (IntDict.get _ _)|]; done.
  - unfold update_todo.
    destruct (IntDict.contains _ _); simpl;
      [destruct (IntDict.get _ _) as [old|] eqn:Hget|]; simpl; try done.
    destruct (Hdb i old (get_elem_of _ _ _ Hget)) as [Hid Hrange].
    split; [done|]. split.
    + intros k t [[= -> ->]|Hin]%elem_of_set; simpl; [|by apply Hdb].
      by rewrite <- Hid.
    + apply Forall_app. split; [done|]. apply Forall_singleton.
      apply updated_message_publishable; [done | simpl; lia].
  - unfold delete_todo.
    destruct (IntDict.contains _ _); simpl;
      [destruct (IntDict.get _ _) as [old|] eqn:Hget|]; simpl; try done.
    destruct (Hdb i old (get_elem_of _ _ _ Hget)) as [Hid Hrange].
    split; [done|]. split.
    + intros k t ?%elem_of_remove. by apply Hdb.
    + apply Forall_app. split; [done|]. apply Forall_singleton.
      apply deleted_message_publishable; [done | lia].
Qed.

(** X10.  When every request runs as a subject that is a string, as the
    authentication gate guarantees, every message the handlers have
    handed to the publisher is one [json.dumps] accepts, has as key the
    id of a todo handed out so far (an integer from 1 up to below the
    counter, never the fallback 'unknown'), and names one of the three
    events. *)
Theorem outbox_messages_publishable (rqs : list request) :
  Forall (fun rq => is_str (current_user_of rq) = true) rqs ->
  forall message,
    message ∈ kafka_outbox (run rqs initial_state) ->
    json_dumps_ok message = true
    /\ (exists i, message_key message = PInt i
                  /\ 1 <= i < todo_id_counter (run rqs initial_state))
    /\ (exists e, message !! "event" = Some (PStr e) /\ e ∈ EVENT_NAMES).
Proof.
  intros Hall.
  assert (Hinv : outbox_invariant (run rqs initial_state)).
  { induction rqs as [|rq rqs IH] using rev_ind;
      [apply outbox_invariant_initial|].
    apply Forall_app in Hall as [Hrqs Hrq]. rewrite run_snoc.
    apply step_outbox_invariant; [by inversion Hrq | by apply IH]. }
  destruct Hinv as (_ & _ & Hout). intros message Hin.
  by eapply Forall_forall in Hout.
Qed.

Lemma outbox_messages_publishable_witness :
  let rqs := [Create 10 {| TodoCreate.title := "a"; TodoCreate.description := None;
                           TodoCreate.completed := false |} (PStr "admin");
              Delete 1 (PStr "user")] in
  json_dumps_ok (deleted_message
                   {| Todo.id := 1; Todo.title := "a"; Todo.description := None;
                      Todo.completed := false; Todo.created_at := 10;
                      Todo.updated_at := 10 |} (PStr "user")) = true
  /\ (exists i, message_key (deleted_message
                   {| Todo.id := 1; Todo.title := "a"; Todo.description := None;
                      Todo.completed := false; Todo.created_at := 10;
                      Todo.updated_at := 10 |} (PStr "user")) = PInt i
                /\ 1 <= i < todo_id_counter (run rqs initial_state))
  /\ (exists e, deleted_message
                   {| Todo.id := 1; Todo.title := "a"; Todo.description := None;
                      Todo.completed := false; Todo.created_at := 10;
                      Todo.updated_at := 10 |} (PStr "user") !! "event"
                = Some (PStr e) /\ e ∈ EVENT_NAMES).
Proof.
  intros rqs.
  apply (outbox_messages_publishable rqs).
  - repeat constructor.
  - right. left.
Defined.

(** * Further properties of authentication *)

(** X11.  Whatever the token library does, the gate lets a request
    through exactly when the library decoded the token to claims whose
    [sub] is a string and whose [exp] is a number that
    [datetime.fromtimestamp] accepts; the subject handed to the handler is
    then that [sub].  A token without [sub] or without [exp] is refused
    even when its signature is good. *)
Theorem gate_accepts_exactly (lib_decode : Jose.token -> option pydict)
    (token : Jose.token) (u : pyval) :
  get_current_user_with lib_decode token = Ok u
  <-> exists payload,
        lib_decode token = Some payload
        /\ payload_get payload "sub" = u
        /\ is_str u = true
        /\ is_Some (Datetime.fromtimestamp (payload_get payload "exp")).
Proof.
  unfold get_current_user_with, decode_token_with, token_payload_of,
    TokenPayload.init.
  destruct (lib_decode token) as [payload|];
    [|split; [done | by intros (? & ? & _)]].
  split.
  - intros H. exists payload. split; [done|]. revert H.
    case_bool_decide as Hsub; [done|].
    case_bool_decide as Hexp; [done|].
    destruct (Datetime.fromtimestamp _) as [e|]; [|done].
    destruct (is_str (payload_get payload "sub")) eqn:Hstr; [|done].
    simpl. rewrite bool_decide_eq_false_2 by done.
    intros [= <-]. eauto.
  - intros (p & [= <-] & <- & Hstr & [e He]).
    rewrite bool_decide_eq_false_2 by (intros Hn; by rewrite Hn in Hstr).
    rewrite bool_decide_eq_false_2 by (intros Hn; by rewrite Hn in He).
    rewrite He, Hstr. simpl.
    by rewrite bool_decide_eq_false_2 by (intros Hn; by rewrite Hn in Hstr).
Qed.

Lemma login_inv lib settings now (username password : string) tk :
  login lib settings now username password = Ok tk ->
  Jose.signs lib (ALGORITHM settings) (SECRET_KEY settings) = true
  /\ Datetime.in_range (now + Datetime.minutes 30) = true
  /\ tk = {| Token.access_token :=
               Jose.Signed (ALGORITHM settings) (SECRET_KEY settings)
                 (issued_claims username (now + Datetime.minutes 30));
             Token.token_type := "bearer" |}.
Proof.
  unfold login.
  destruct (DEMO_USERS !! username); [|done].
  case_bool_decide; [done|].
  destruct (create_access_token _ _ _ _) as [tok|] eqn:Htok; [|done].
  apply create_access_token_inv in Htok as (Hk & Hr & ->).
  unfold effective_delta in *. rewrite bool_decide_eq_false_2 in * by done.
  by intros [= <-].
Qed.

(** X12.  The token a successful login returns is of type 'bearer'.
    When the token library accepts its own signature under the configured
    key, the token passes the authentication gate as the username that
    logged in, at every instant up to thirty minutes after the login.
    From one second after that on, the gate refuses it with the 401
    'Invalid or expired token'. *)
Theorem login_token_passes_gate lib settings now (username password : string) tk :
  login lib settings now username password = Ok tk ->
  Token.token_type tk = "bearer"
  /\ (Jose.verifies lib (ALGORITHM settings) (SECRET_KEY settings)
        (SECRET_KEY settings) = true ->
      forall now', now' <= now + Datetime.minutes 30 ->
        get_current_user lib settings now' (Token.access_token tk)
        = Ok (PStr username))
  /\ (forall now',
        now + Datetime.minutes 30 + Datetime.US_PER_SECOND <= now' ->
        get_current_user lib settings now' (Token.access_token tk)
        = Raise (unauthorized "Invalid or expired token")).
Proof.
  intros (Hk & Hr & ->)%login_inv. simpl. split; [done|].
  assert (Hgate : forall now',
            get_current_user lib settings now'
              (Jose.Signed (ALGORITHM settings) (SECRET_KEY settings)
                 (issued_claims username (now + Datetime.minutes 30)))
            = if Jose.verifies lib (ALGORITHM settings) (SECRET_KEY settings)
                   (SECRET_KEY settings)
                 && negb (Datetime.timegm (now + Datetime.minutes 30)
                          <? Datetime.timegm now')
              then Ok (PStr username)
              else Raise (unauthorized "Invalid or expired token")).
  { intros now'. unfold get_current_user, get_current_user_with.
    change (decode_token_with _ ?tok) with (decode_token lib settings now' tok).
    rewrite decode_token_issued by done.
    by destruct (_ && _). }
  split.
  - intros Hv now' Hle. rewrite Hgate, Hv. apply timegm_mono in Hle.
    by destruct (Z.ltb_spec (Datetime.timegm (now + Datetime.minutes 30))
                   (Datetime.timegm now')); [lia|].
  - intros now' Hle. rewrite Hgate. apply timegm_mono in Hle. revert Hle.
    unfold Datetime.timegm at 1, Datetime.US_PER_SECOND.
    replace (now + Datetime.minutes 30 + 1000000)
      with (now + Datetime.minutes 30 + 1 * 1000000) by lia.
    rewrite Z.div_add by lia.
    fold Datetime.US_PER_SECOND. fold (Datetime.timegm (now + Datetime.minutes 30)).
    intros Hle.
    destruct (Z.ltb_spec (Datetime.timegm (now + Datetime.minutes 30))
                (Datetime.timegm now')); [|lia].
    by rewrite andb_false_r.
Qed.

Lemma login_token_passes_gate_witness :
  get_current_user Jose.hmac default_settings
    (1700000000000000 + Datetime.minutes 30)
    (Jose.Signed "HS256" (SECRET_KEY default_settings)
       (issued_claims "demo" (1700000000000000 + Datetime.minutes 30)))
  = Ok (PStr "demo").
Proof.
  refine (proj1 (proj2
    (login_token_passes_gate Jose.hmac default_settings 1700000000000000
       "demo" "demo123"
       {| Token.access_token :=
            Jose.Signed "HS256" (SECRET_KEY default_settings)
              (issued_claims "demo" (1700000000000000 + Datetime.minutes 30));
          Token.token_type := "bearer" |} _)) _
    (1700000000000000 + Datetime.minutes 30) _).
  - vm_compute. reflexivity.
  - vm_compute. reflexivity.
  - lia.
Defined.

(** X13.  Whatever the token library and the configuration, login
    answers with the 500 'Login error' exactly when the credentials are
    in the table but no token can be made: the library does not sign with
    the configured algorithm and key, or the expiry would lie beyond the
    last [datetime].  The credentials are checked first, so a wrong pair
    never gets the 500. *)
Theorem login_error_exactly lib settings now (username password : string) :
  login lib settings now username password = Raise (http_error 500 "Login error")
  <-> DEMO_USERS !! username = Some password
      /\ (Jose.signs lib (ALGORITHM settings) (SECRET_KEY settings) = false
          \/ Datetime.in_range (now + Datetime.minutes 30) = false).
Proof.
  unfold login.
  destruct (DEMO_USERS !! username) as [stored|];
    [|split; [done | by intros [? _]]].
  case_bool_decide as Hpw.
  { split; [done | intros [[= ->] _]; done]. }
  assert (stored = password) as -> by (destruct (decide (password = stored)); [done | by destruct Hpw]).
  unfold create_access_token, effective_delta, Datetime.add.
  rewrite bool_decide_eq_false_2 by done.
  destruct (Datetime.in_range _) eqn:Hr.
  - destruct (Jose.signs lib (ALGORITHM settings) (SECRET_KEY settings)) eqn:Hk.
    + rewrite encode_issued by done.
      split; [done | intros [_ [?|?]]; done].
    + unfold Jose.encode. rewrite Hk. simpl. split; [eauto | done].
  - split; [eauto | done].
Qed.

(** ** The claims of an issued token *)

Lemma lookup_convert_time_claim (claims : pydict) (name k : string) :
  Jose.convert_time_claim claims name !! k
  = if bool_decide (k = name)
    then match claims !! name with
         | Some (PDatetime t) => Some (PInt (Datetime.timegm t))
         | o => o
         end
    else claims !! k.
Proof.
  unfold Jose.convert_time_claim. case_bool_decide as Hk.
  - subst k. destruct (claims !! name) as [[]|] eqn:Hn; try done.
    by rewrite lookup_insert_eq.
  - destruct (claims !! name) as [[]|] eqn:Hn; try done.
    by rewrite lookup_insert_ne.
Qed.

(** X14.  Whatever claims the caller passes, a token that
    [create_access_token] issues is signed with the configured algorithm
    and key, its [exp] claim is the whole second of the clock plus the
    time-to-live (an [exp] in the caller's data is overwritten), and every
    claim other than the three time claims is carried as given. *)
Theorem issued_token_claims lib settings now (data : pydict) expires_delta tok :
  create_access_token lib settings now data expires_delta = Some tok ->
  exists claims,
    tok = Jose.Signed (ALGORITHM settings) (SECRET_KEY settings) claims
    /\ claims !! "exp"
       = Some (PInt (Datetime.timegm
                       (now + effective_delta settings expires_delta)))
    /\ forall k, k ∉ Jose.TIME_CLAIMS -> claims !! k = data !! k.
Proof.
  unfold create_access_token, Datetime.add.
  destruct (Datetime.in_range _); [|done].
  unfold Jose.encode. destruct (_ && _); [|done].
  intros [= <-]. eexists. split; [done|]. simpl. split.
  - rewrite !lookup_convert_time_claim.
    rewrite !bool_decide_eq_false_2 by done.
    by rewrite bool_decide_eq_true_2, lookup_insert_eq.
  - intros k Hk. rewrite !lookup_convert_time_claim.
    assert (k ≠ "exp" /\ k ≠ "iat" /\ k ≠ "nbf") as (? & ? & ?).
    { unfold Jose.TIME_CLAIMS in Hk. rewrite !not_elem_of_cons in Hk. tauto. }
    rewrite !bool_decide_eq_false_2 by done.
    by rewrite lookup_insert_ne.
Qed.

Lemma issued_token_claims_witness :
  exists claims,
    Jose.Signed "HS256" (SECRET_KEY default_settings)
      (issued_claims "admin" (1700000000000000 + Datetime.minutes 30))
    = Jose.Signed (ALGORITHM default_settings) (SECRET_KEY default_settings)
        claims
    /\ claims !! "exp"
       = Some (PInt (Datetime.timegm
                       (1700000000000000
                        + effective_delta default_settings None)))
    /\ forall k, k ∉ Jose.TIME_CLAIMS ->
         claims !! k
         = ({[ "sub" := PStr "admin"; "exp" := PInt 7 ]} : pydict) !! k.
Proof.
  apply (issued_token_claims Jose.hmac default_settings 1700000000000000
           {[ "sub" := PStr "admin"; "exp" := PInt 7 ]} None).
  vm_compute. reflexivity.
Defined.

(** * Timestamps of the records *)

Lemma step_created_before_updated now st rq :
  (forall t, clock_reading rq = Some t -> t = now) ->
  stamps_at_most now st ->
  (forall k t, (k, t) ∈ todos_db st -> Todo.created_at t <= Todo.updated_at t) ->
  forall k t, (k, t) ∈ todos_db (step st rq) ->
    Todo.created_at t <= Todo.updated_at t.
Proof.
  intros Hclock Hst Hinv.
  destruct rq as [t0 todo u|u|i u|t0 i todo u|i u]; simpl.
  - unfold create_todo, Todo.init. destruct (_ && _); simpl; [|done].
    intros k t [[= -> ->]|Hin]%elem_of_set; simpl; [lia | eauto].
  - done.
  - unfold get_todo.
    destruct (IntDict.contains _ _); simpl;
      [destruct (IntDict.get _ _) as [old|]|]; done.
  - specialize (Hclock t0 eq_refl) as ->.
    unfold update_todo.
    destruct (IntDict.contains _ _); simpl;
      [destruct (IntDict.get _ _) as [old|] eqn:Hget|]; simpl; try done.
    intros k t [[= -> ->]|Hin]%elem_of_set; simpl; [|eauto].
    apply get_elem_of in Hget.
    specialize (Hst _ _ Hget). specialize (Hinv _ _ Hget). lia.
  - unfold delete_todo.
    destruct (IntDict.contains _ _); simpl;
      [destruct (IntDict.get _ _) as [old|]|]; simpl; try done.
    intros k t ?%elem_of_remove. eauto.
Qed.

(** X15.  When the clock readings the handlers take never go back,
    every record in a state reached from the initial one has
    [created_at] no later than [updated_at]. *)
Theorem created_before_updated (rqs : list request) :
  StronglySorted Z.le (clock_readings rqs) ->
  forall k t, (k, t) ∈ todos_db (run rqs initial_state) ->
    Todo.created_at t <= Todo.updated_at t.
Proof.
  unfold clock_readings.
  induction rqs as [|rq rqs IH] using rev_ind; intros Hsorted;
    [by intros k t ?%elem_of_nil|].
  rewrite omap_app in Hsorted.
  apply StronglySorted_app in Hsorted as (Hle & Hrqs & _).
  rewrite run_snoc.
  destruct (clock_reading rq) as [now|] eqn:Hrq.
  - apply (step_created_before_updated now).
    + intros t. rewrite Hrq. by intros [= <-].
    + apply run_stamps. apply Forall_forall. intros rq' Hin t Ht.
      apply Hle.
      * apply list_elem_of_omap. eauto.
      * simpl. rewrite Hrq. left.
    + by apply IH.
  - destruct rq as [t0 todo u|u|i u|t0 i todo u|i u]; try done.
    + by apply IH.
    + simpl. unfold get_todo.
      destruct (IntDict.contains _ _); simpl;
        [destruct (IntDict.get _ _) as [old|]|]; by apply IH.
    + simpl. unfold delete_todo.
      destruct (IntDict.contains _ _); simpl;
        [destruct (IntDict.get _ _) as [old|]|]; simpl; try by apply IH.
      intros k t ?%elem_of_remove. by eapply IH.
Qed.

Lemma created_before_updated_witness :
  Todo.created_at {| Todo.id := 1; Todo.title := "b"; Todo.description := None;
                     Todo.completed := true; Todo.created_at := 10;
                     Todo.updated_at := 20 |}
  <= Todo.updated_at {| Todo.id := 1; Todo.title := "b";
                        Todo.description := None; Todo.completed := true;
                        Todo.created_at := 10; Todo.updated_at := 20 |}.
Proof.
  apply (created_before_updated
           [Create 10 {| TodoCreate.title := "a"; TodoCreate.description := None;
                         TodoCreate.completed := false |} (PStr "admin");
            Update 20 1 {| TodoCreate.title := "b"; TodoCreate.description := None;
                           TodoCreate.completed := true |} (PStr "user")]
           ltac:(repeat constructor; lia) 1).
  left.
Defined.
